(** * Filament dryer manager (mmu_dryer.py): shallow embedding and verification

    The module is a single Python class, [FilamentDryer], driven by the
    host firmware: G-code command handlers and one reactor timer callback.
    The class mutates its own attributes, a heater object owned by the
    host, and raises exceptions part-way through a method, so the methods
    are embedded in a state-and-exception monad over a [world] that holds
    the instance and the host objects it talks to.

    Numbers.  Python's numbers (the integer defaults [0] and the floats the
    host hands in) are embedded as exact rationals [Q]: arithmetic is exact,
    rounding of binary floating point is not represented, and division by
    zero raises [ZeroDivisionError] as in Python.  Where a statement is about
    a sum the caller forms in floating point, the sum is the machine's
    ([binary64] below) and the methods run on the rationals it yields.

    Text.  A [%]-formatted message is kept as its template together with
    the tuple of arguments, so that the numbers a message carries can be
    read back without committing to a rendering of ["%.1f"]. *)

From Stdlib Require Import QArith Qround Lqa Ascii String OrdersEx.
From Stdlib Require PrimFloat FloatOps SpecFloat.
From stdpp Require Import gmap strings list fin_maps sorting.

Open Scope string_scope.
Open Scope Q_scope.

(** ** Python values *)

(** [int(x)] on a float truncates toward zero. *)
Definition py_int (x : Q) : Z := Z.quot (Qnum x) (Zpos (Qden x)).

(** [a % b] on integers takes the sign of the divisor, as [Z.modulo]. *)
Definition py_mod (a b : Z) : Z := (a mod b)%Z.

(** [x <= y] and [x > y] on numbers. *)
Definition py_le (x y : Q) : bool := Qle_bool x y.
Definition py_gt (x y : Q) : bool := negb (Qle_bool x y).

(** Characters of [str.strip()], [str.lower()] and [str.upper()].  A
    string is the sequence of the bytes of its UTF-8 form, and these three
    act on the ASCII range: the white space of [str.isspace] below 128 is
    the space, the codes 9 to 13 and the separators 28 to 31, and the
    letters are [A-Z] and [a-z].  A character outside ASCII is left as it
    is, where Python 3 also strips and maps some of them. *)
Definition is_space (c : ascii) : bool :=
  let n := nat_of_ascii c in
  ((n =? 32) || ((9 <=? n) && (n <=? 13)) || ((28 <=? n) && (n <=? 31)))%nat.

Definition lower_char (c : ascii) : ascii :=
  let n := nat_of_ascii c in
  if ((65 <=? n) && (n <=? 90))%nat then ascii_of_nat (n + 32) else c.

Definition upper_char (c : ascii) : ascii :=
  let n := nat_of_ascii c in
  if ((97 <=? n) && (n <=? 122))%nat then ascii_of_nat (n - 32) else c.

Fixpoint map_string (f : ascii -> ascii) (s : string) : string :=
  match s with
  | EmptyString => EmptyString
  | String c s' => String (f c) (map_string f s')
  end.

Definition lower (s : string) : string := map_string lower_char s.
Definition upper (s : string) : string := map_string upper_char s.

Fixpoint lstrip (s : string) : string :=
  match s with
  | EmptyString => EmptyString
  | String c s' => if is_space c then lstrip s' else s
  end.

(** [rstrip] keeps a character when something other than white space
    follows it. *)
Fixpoint rstrip (s : string) : string :=
  match s with
  | EmptyString => EmptyString
  | String c s' =>
      match rstrip s' with
      | EmptyString => if is_space c then EmptyString else String c EmptyString
      | r => String c r
      end
  end.

Definition strip (s : string) : string := rstrip (lstrip s).

(** [s.split(',')]: always at least one field, empty fields are kept. *)
Fixpoint split_comma (s : string) : list string :=
  match s with
  | EmptyString => [EmptyString]
  | String c s' =>
      if Ascii.eqb c ","%char then EmptyString :: split_comma s'
      else match split_comma s' with
           | x :: r => String c x :: r
           | [] => [String c EmptyString]
           end
  end.

(** A string is true in a condition when it is not empty. *)
Definition truthy (s : string) : bool :=
  match s with EmptyString => false | _ => true end.

(** Formatted text: literal pieces and [template % args] pieces. *)
Inductive fmt_arg : Type :=
| Num (x : Q)
| Str (s : string).

Inductive piece : Type :=
| Lit (s : string)
| Fmt (template : string) (args : list fmt_arg).

Definition text : Type := list piece.

Definition nl : string := String (ascii_of_nat 10) EmptyString.

(** Values stored in the dictionary [get_status] returns. *)
Inductive value : Type :=
| VBool (b : bool)
| VNum (x : Q).

(** ** Host objects *)

(** Modelled from the spec: the heater resource, [getStatus(time)] giving
    [{temperature, target, ...}] and [setTemperature(target)].  The reading
    may lack a temperature, which the source covers with
    [.get('temperature', 0)]. *)
Record heater_obj : Type := {
  temperature : option Q;
  target : Q
}.

(** What a reactor timer callback returns: a wake-up time or [NEVER]. *)
Inductive waketime : Type :=
| At (t : Q)
| NEVER.

Inductive output : Type :=
| respond_info (msg : text)
| run_script_from_command (script : text).

(** Modelled from the spec: the collaborators of section 6.  [pheaters] is
    the heater registry ([lookup_heater] fails on a missing name, with
    reason [lookup_reason]), [idle_timeout] the state of the optional idle
    monitor, [clock] the successive readings of [reactor.monotonic()],
    [timers] the registered reactor timers by handle, [responses] what was
    sent to the G-code console so far. *)
Record host : Type := {
  pheaters : gmap string heater_obj;
  lookup_reason : string;
  idle_timeout : option string;
  clock : nat -> Q;
  clock_reads : nat;
  timers : gmap nat waketime;
  timer_count : nat;
  responses : list output
}.

(** Modelled from the spec: the configuration section, [get] on raw strings
    and [getfloat] on parsed numbers, both by option name. *)
Record config : Type := {
  config_get : string -> option string;
  config_getfloat : string -> option Q
}.

(** Modelled from the spec: the parameters of one G-code command line. *)
Record gcmd : Type := {
  PRESET : option string;
  TEMP : option Q;
  DURATION : option Q
}.

(** ** The instance *)

Module preset.
Record t : Type := { temp : Q; duration : Q }.
End preset.

Record FilamentDryer : Type := {
  heater_name : string;
  heater : option string;
  is_drying : bool;
  target_temp : Q;
  duration : Q;
  start_time : Q;
  end_time : Q;
  timer_handler : option nat;
  original_target : Q;
  presets : gmap string preset.t
}.

Record world : Type := {
  self : FilamentDryer;
  printer : host
}.

(** ** Exceptions and the method monad *)

(** [command_error] is the host's [gcode.error] / [gcmd.error];
    [ZeroDivisionError] is Python's.  [stale_handle] stands for a call on a
    heater handle the registry does not hold; the registry never shrinks,
    and [stale_handle_not_raised] below shows it is not raised. *)
Inductive exn : Type :=
| command_error (msg : text)
| ZeroDivisionError
| stale_handle.

Inductive result (A : Type) : Type :=
| Ok (a : A)
| Raised (e : exn).
Arguments Ok {A} a.
Arguments Raised {A} e.

(** A method runs on the world and either returns or raises; whatever it
    wrote before raising stays written. *)
Definition M (A : Type) : Type := world -> result A * world.

#[global] Instance M_ret : MRet M := fun A a w => (Ok a, w).
#[global] Instance M_bind : MBind M := fun A B k m w =>
  match m w with
  | (Ok a, w') => k a w'
  | (Raised e, w') => (Raised e, w')
  end.

Definition raise {A : Type} (e : exn) : M A := fun w => (Raised e, w).

Definition get_self : M FilamentDryer := fun w => (Ok (self w), w).
Definition get_printer : M host := fun w => (Ok (printer w), w).
Definition set_self (f : FilamentDryer -> FilamentDryer) : M unit :=
  fun w => (Ok tt, {| self := f (self w); printer := printer w |}).
Definition set_printer (f : host -> host) : M unit :=
  fun w => (Ok tt, {| self := self w; printer := f (printer w) |}).

(** [a / b], raising on a zero divisor. *)
Definition py_div (a b : Q) : M Q :=
  if Qeq_bool b 0 then raise ZeroDivisionError else mret (a / b).

(** *** Attribute assignment *)

Definition with_heater (v : option string) (d : FilamentDryer) : FilamentDryer :=
  {| heater_name := heater_name d; heater := v; is_drying := is_drying d;
     target_temp := target_temp d; duration := duration d;
     start_time := start_time d; end_time := end_time d;
     timer_handler := timer_handler d; original_target := original_target d;
     presets := presets d |}.

Definition with_is_drying (v : bool) (d : FilamentDryer) : FilamentDryer :=
  {| heater_name := heater_name d; heater := heater d; is_drying := v;
     target_temp := target_temp d; duration := duration d;
     start_time := start_time d; end_time := end_time d;
     timer_handler := timer_handler d; original_target := original_target d;
     presets := presets d |}.

Definition with_target_temp (v : Q) (d : FilamentDryer) : FilamentDryer :=
  {| heater_name := heater_name d; heater := heater d; is_drying := is_drying d;
     target_temp := v; duration := duration d;
     start_time := start_time d; end_time := end_time d;
     timer_handler := timer_handler d; original_target := original_target d;
     presets := presets d |}.

Definition with_duration (v : Q) (d : FilamentDryer) : FilamentDryer :=
  {| heater_name := heater_name d; heater := heater d; is_drying := is_drying d;
     target_temp := target_temp d; duration := v;
     start_time := start_time d; end_time := end_time d;
     timer_handler := timer_handler d; original_target := original_target d;
     presets := presets d |}.

Definition with_start_time (v : Q) (d : FilamentDryer) : FilamentDryer :=
  {| heater_name := heater_name d; heater := heater d; is_drying := is_drying d;
     target_temp := target_temp d; duration := duration d;
     start_time := v; end_time := end_time d;
     timer_handler := timer_handler d; original_target := original_target d;
     presets := presets d |}.

Definition with_end_time (v : Q) (d : FilamentDryer) : FilamentDryer :=
  {| heater_name := heater_name d; heater := heater d; is_drying := is_drying d;
     target_temp := target_temp d; duration := duration d;
     start_time := start_time d; end_time := v;
     timer_handler := timer_handler d; original_target := original_target d;
     presets := presets d |}.

Definition with_timer_handler (v : option nat) (d : FilamentDryer) : FilamentDryer :=
  {| heater_name := heater_name d; heater := heater d; is_drying := is_drying d;
     target_temp := target_temp d; duration := duration d;
     start_time := start_time d; end_time := end_time d;
     timer_handler := v; original_target := original_target d;
     presets := presets d |}.

Definition with_original_target (v : Q) (d : FilamentDryer) : FilamentDryer :=
  {| heater_name := heater_name d; heater := heater d; is_drying := is_drying d;
     target_temp := target_temp d; duration := duration d;
     start_time := start_time d; end_time := end_time d;
     timer_handler := timer_handler d; original_target := v;
     presets := presets d |}.

(** *** Host calls *)

Definition with_pheaters (v : gmap string heater_obj) (h : host) : host :=
  {| pheaters := v; lookup_reason := lookup_reason h;
     idle_timeout := idle_timeout h; clock := clock h;
     clock_reads := clock_reads h; timers := timers h;
     timer_count := timer_count h; responses := responses h |}.

Definition with_idle_timeout (v : option string) (h : host) : host :=
  {| pheaters := pheaters h; lookup_reason := lookup_reason h;
     idle_timeout := v; clock := clock h;
     clock_reads := clock_reads h; timers := timers h;
     timer_count := timer_count h; responses := responses h |}.

Definition with_clock_reads (v : nat) (h : host) : host :=
  {| pheaters := pheaters h; lookup_reason := lookup_reason h;
     idle_timeout := idle_timeout h; clock := clock h;
     clock_reads := v; timers := timers h;
     timer_count := timer_count h; responses := responses h |}.

Definition with_timers (v : gmap nat waketime) (n : nat) (h : host) : host :=
  {| pheaters := pheaters h; lookup_reason := lookup_reason h;
     idle_timeout := idle_timeout h; clock := clock h;
     clock_reads := clock_reads h; timers := v;
     timer_count := n; responses := responses h |}.

Definition with_responses (v : list output) (h : host) : host :=
  {| pheaters := pheaters h; lookup_reason := lookup_reason h;
     idle_timeout := idle_timeout h; clock := clock h;
     clock_reads := clock_reads h; timers := timers h;
     timer_count := timer_count h; responses := v |}.

(** [reactor.monotonic()]: the next reading of the clock. *)
Definition monotonic : M Q :=
  p ← get_printer;
  set_printer (with_clock_reads (S (clock_reads p)));;
  mret (clock p (clock_reads p)).

(** [reactor.register_timer(callback, waketime)]: a fresh handle. *)
Definition register_timer (waketime : Q) : M nat :=
  p ← get_printer;
  set_printer (with_timers (<[timer_count p := At waketime]> (timers p))
                           (S (timer_count p)));;
  mret (timer_count p).

(** [reactor.unregister_timer(handle)]. *)
Definition unregister_timer (handle : nat) : M unit :=
  p ← get_printer;
  set_printer (with_timers (delete handle (timers p)) (timer_count p)).

(** [gcode.respond_info(msg)] and [gcode.run_script_from_command(script)]. *)
Definition emit (o : output) : M unit :=
  p ← get_printer;
  set_printer (with_responses (responses p ++ [o])%list).

(** [heater.get_status(eventtime)] on a handle. *)
Definition heater_get_status (h : string) (eventtime : Q) : M heater_obj :=
  p ← get_printer;
  match pheaters p !! h with
  | Some o => mret o
  | None => raise stale_handle
  end.

(** [heater.set_temp(degrees)] on a handle. *)
Definition heater_set_temp (h : string) (degrees : Q) : M unit :=
  p ← get_printer;
  match pheaters p !! h with
  | Some o =>
      set_printer (with_pheaters
        (<[h := {| temperature := temperature o; target := degrees |}]> (pheaters p)))
  | None => raise stale_handle
  end.

(** [idle_timeout = printer.lookup_object('idle_timeout', None)] followed
    by [idle_timeout.set_state("Printing")] when it is there. *)
Definition idle_timeout_set_printing : M unit :=
  p ← get_printer;
  match idle_timeout p with
  | Some _ => set_printer (with_idle_timeout (Some "Printing"))
  | None => mret tt
  end.

(** ** class FilamentDryer *)

(** The format strings of the three composed messages. *)
Definition progress_template : string :=
  "Drying: %.1f°C | %.1f%% complete | %.1fh elapsed | %.1fh remaining".

Definition status_template : string :=
  "Dryer Status: Active" +:+ nl +:+
  "Target Temperature: %.1f°C" +:+ nl +:+
  "Current Temperature: %.1f°C" +:+ nl +:+
  "Total Duration: %.1f hours" +:+ nl +:+
  "Elapsed: %.1f hours" +:+ nl +:+
  "Remaining: %.1f hours" +:+ nl +:+
  "Progress: %.1f%%".

Definition preset_template : string :=
  "  %s: %.1f°C for %.1f hours" +:+ nl.


(** One turn of the preset loop of [__init__]. *)
Definition load_preset (cfg : config) (presets : gmap string preset.t)
    (preset_name : string) : gmap string preset.t :=
  let preset_name := strip preset_name in
  if truthy preset_name then
    let temp := config_getfloat cfg ("preset_" +:+ preset_name +:+ "_temp") in
    let duration := config_getfloat cfg ("preset_" +:+ preset_name +:+ "_duration") in
    match temp, duration with
    | Some temp, Some duration =>
        <[lower preset_name :=
            {| preset.temp := temp; preset.duration := duration * 3600 |}]> presets
    | _, _ => presets
    end
  else presets.

Definition __init__ (cfg : config) : FilamentDryer :=
  {| heater_name := default "heater_box" (config_get cfg "heater");
     heater := None;
     is_drying := false;
     target_temp := 0;
     duration := 0;
     start_time := 0;
     end_time := 0;
     timer_handler := None;
     original_target := 0;
     presets := foldl (load_preset cfg) ∅
                  (split_comma (default "" (config_get cfg "presets"))) |}.

Definition _get_heater : M string :=
  d ← get_self;
  match heater d with
  | Some h => mret h
  | None =>
      p ← get_printer;
      match pheaters p !! heater_name d with
      | Some _ =>
          set_self (with_heater (Some (heater_name d)));;
          mret (heater_name d)
      | None =>
          raise (command_error
            [Fmt "Filament dryer: Unable to find heater '%s': %s"
                 [Str (heater_name d); Str (lookup_reason p)]])
      end
  end.

Definition _stop_timer : M unit :=
  d ← get_self;
  match timer_handler d with
  | Some handle =>
      unregister_timer handle;;
      set_self (with_timer_handler None)
  | None => mret tt
  end.

Definition _stop_drying : M unit :=
  d ← get_self;
  if negb (is_drying d) then mret tt else
  _stop_timer;;
  heater ← _get_heater;
  d ← get_self;
  heater_set_temp heater (original_target d);;
  set_self (with_is_drying false);;
  set_self (with_target_temp 0);;
  set_self (with_duration 0);;
  set_self (with_start_time 0);;
  set_self (with_end_time 0);;
  emit (respond_info [Lit "Filament drying stopped"]).

Definition _timer_callback (eventtime : Q) : M waketime :=
  d ← get_self;
  if negb (is_drying d) then mret NEVER else
  let remaining := end_time d - eventtime in
  if py_le remaining 0 then
    emit (respond_info [Lit "Filament drying cycle complete!"]);;
    _stop_drying;;
    mret NEVER
  else
    (if (py_mod (py_int (eventtime - start_time d)) 300 =? 0)%Z then
       let remaining_hours := remaining / 3600 in
       let elapsed_hours := (eventtime - start_time d) / 3600 in
       q ← py_div (eventtime - start_time d) (duration d);
       let progress := q * 100 in
       heater ← _get_heater;
       status ← heater_get_status heater eventtime;
       let current_temp := default 0 (temperature status) in
       emit (run_script_from_command
         [Lit "M118 ";
          Fmt progress_template
              [Num current_temp; Num progress;
               Num elapsed_hours; Num remaining_hours]])
     else mret tt);;
    mret (At (eventtime + 1)).

Definition _start_drying (temp duration : Q) : M unit :=
  d ← get_self;
  if is_drying d then
    raise (command_error [Lit "Drying cycle already in progress"])
  else
  heater ← _get_heater;
  now ← monotonic;
  status ← heater_get_status heater now;
  set_self (with_original_target (target status));;
  idle_timeout_set_printing;;
  heater_set_temp heater temp;;
  set_self (with_target_temp temp);;
  set_self (with_duration duration);;
  now ← monotonic;
  set_self (with_start_time now);;
  d ← get_self;
  set_self (with_end_time (start_time d + duration));;
  set_self (with_is_drying true);;
  now ← monotonic;
  handle ← register_timer (now + 1);
  set_self (with_timer_handler (Some handle));;
  let hours := duration / 3600 in
  emit (respond_info
    [Fmt "Started filament drying: %.1f°C for %.1f hours" [Num temp; Num hours]]).

(** The two branches by which [cmd_START_FILAMENT_DRYING] obtains [temp]
    and [duration]. *)
Definition preset_parameters (preset : string) : M (Q * Q) :=
  let preset := lower preset in
  d ← get_self;
  match presets d !! preset with
  | None =>
      raise (command_error
        [Fmt "Unknown preset '%s'. Use LIST_DRYER_PRESETS to see available presets."
             [Str preset]])
  | Some settings => mret (preset.temp settings, preset.duration settings)
  end.

Definition manual_parameters (g : gcmd) : M (Q * Q) :=
  match TEMP g, DURATION g with
  | Some temp, Some duration => mret (temp, duration * 3600)
  | _, _ =>
      raise (command_error
        [Lit "Must specify either PRESET or both TEMP and DURATION parameters"])
  end.

(** [preset = gcmd.get('PRESET', None)] and the test [if preset:]. *)
Definition start_parameters (g : gcmd) : M (Q * Q) :=
  match PRESET g with
  | Some preset =>
      if truthy preset then preset_parameters preset else manual_parameters g
  | None => manual_parameters g
  end.

Definition cmd_START_FILAMENT_DRYING (g : gcmd) : M unit :=
  '(temp, duration) ← start_parameters g;
  _start_drying temp duration.

Definition cmd_STOP_FILAMENT_DRYING : M unit :=
  d ← get_self;
  if negb (is_drying d) then
    emit (respond_info [Lit "No drying cycle in progress"])
  else _stop_drying.

Definition cmd_DRYER_STATUS : M unit :=
  d ← get_self;
  if negb (is_drying d) then emit (respond_info [Lit "Dryer Status: Idle"]) else
  current_time ← monotonic;
  let elapsed := current_time - start_time d in
  let remaining := end_time d - current_time in
  let elapsed_hours := elapsed / 3600 in
  let remaining_hours := remaining / 3600 in
  let total_hours := duration d / 3600 in
  q ← py_div elapsed (duration d);
  let progress := q * 100 in
  heater ← _get_heater;
  heater_status ← heater_get_status heater current_time;
  let current_temp := default 0 (temperature heater_status) in
  d ← get_self;
  emit (respond_info
    [Fmt status_template
         [Num (target_temp d); Num current_temp; Num total_hours;
          Num elapsed_hours; Num remaining_hours; Num progress]]).

(** [sorted(self.presets.items())]: the keys of a dictionary are distinct,
    so the order of the pairs is the order of their names, compared
    character by character. *)
Definition item_le (a b : string * preset.t) : Prop :=
  String.leb a.1 b.1 = true.

#[global] Instance item_le_dec : RelDecision item_le.
Proof. intros a b. unfold item_le. apply _. Defined.

Definition sorted_items (m : gmap string preset.t) : list (string * preset.t) :=
  merge_sort item_le (map_to_list m).

(** One turn of the listing loop: [response += "  %s: ..." % (...)]. *)
Definition preset_line (response : text) (item : string * preset.t) : text :=
  let '(name, settings) := item in
  let hours := preset.duration settings / 3600 in
  (response ++ [Fmt preset_template
                    [Str (upper name); Num (preset.temp settings); Num hours]])%list.

Definition cmd_LIST_DRYER_PRESETS : M unit :=
  d ← get_self;
  if decide (presets d = ∅) then
    emit (respond_info [Lit "No presets configured"])
  else
    let response :=
      foldl preset_line [Lit ("Available Drying Presets:" +:+ nl)]
            (sorted_items (presets d)) in
    emit (respond_info response).

Definition get_status (eventtime : Q) : M (gmap string value) :=
  d ← get_self;
  let status : gmap string value :=
    <["target_temp" := VNum (target_temp d)]>
      (<["is_drying" := VBool (is_drying d)]> ∅) in
  if is_drying d then
    let elapsed := eventtime - start_time d in
    let remaining := end_time d - eventtime in
    progress ← (if py_gt (duration d) 0
                then q ← py_div elapsed (duration d); mret (q * 100)
                else mret 0);
    mret (<["progress" := VNum progress]>
            (<["remaining" := VNum remaining]>
               (<["elapsed" := VNum elapsed]>
                  (<["duration" := VNum (duration d)]> status))))
  else mret status.

(** [load_config]: the instance in its host. *)
Definition load_config (cfg : config) (p : host) : world :=
  {| self := __init__ cfg; printer := p |}.

(** ** Runs of the controller *)

(** What the host can ask of the instance: the four registered commands,
    a firing of the reactor timer, a status query, and the two internal
    entry points the commands lead to. *)
Inductive call : Type :=
| START_FILAMENT_DRYING (g : gcmd)
| STOP_FILAMENT_DRYING
| DRYER_STATUS
| LIST_DRYER_PRESETS
| timer_fires (eventtime : Q)
| status_query (eventtime : Q)
| start_drying (temp duration : Q)
| stop_drying.

(** The world a call leaves behind, whether it returned or raised. *)
Definition perform (c : call) (w : world) : world :=
  match c with
  | START_FILAMENT_DRYING g => (cmd_START_FILAMENT_DRYING g w).2
  | STOP_FILAMENT_DRYING => (cmd_STOP_FILAMENT_DRYING w).2
  | DRYER_STATUS => (cmd_DRYER_STATUS w).2
  | LIST_DRYER_PRESETS => (cmd_LIST_DRYER_PRESETS w).2
  | timer_fires eventtime => (_timer_callback eventtime w).2
  | status_query eventtime => (get_status eventtime w).2
  | start_drying temp duration => (_start_drying temp duration w).2
  | stop_drying => (_stop_drying w).2
  end.

Inductive reachable (cfg : config) (p : host) : world -> Prop :=
| reachable_init : reachable cfg p (load_config cfg p)
| reachable_step w c : reachable cfg p w -> reachable cfg p (perform c w).

(** The timer callback fired at each of [times] in turn. *)
Definition run_ticks (times : list Q) (w : world) : world :=
  foldl (fun w t => (_timer_callback t w).2) w times.

(** The heater handle a method would obtain from [_get_heater], with the
    object behind it. *)
Definition resolve (w : world) : option (string * heater_obj) :=
  let h := default (heater_name (self w)) (heater (self w)) in
  o ← pheaters (printer w) !! h; Some (h, o).

(** The target of the configured heater, when there is such a heater. *)
Definition heater_target (w : world) : option Q :=
  target <$> pheaters (printer w) !! heater_name (self w).

(** What holds of the instance between calls. *)
Record consistent (w : world) : Prop := {
  timer_iff_drying :
    timer_handler (self w) <> None <-> is_drying (self w) = true;
  drying_has_heater :
    is_drying (self w) = true -> heater (self w) <> None;
  handle_is_registered : forall h,
    heater (self w) = Some h ->
    h = heater_name (self w) /\ is_Some (pheaters (printer w) !! h);
  idle_is_cleared :
    is_drying (self w) = false ->
    target_temp (self w) = 0 /\ duration (self w) = 0 /\
    start_time (self w) = 0 /\ end_time (self w) = 0;
  drying_deadline :
    is_drying (self w) = true ->
    end_time (self w) = start_time (self w) + duration (self w)
}.

(** The worlds the two state-changing methods produce when they succeed,
    written out field by field. *)
Definition stopped (h : string) (o : heater_obj) (w : world) : world :=
  {| self :=
       {| heater_name := heater_name (self w); heater := Some h;
          is_drying := false; target_temp := 0; duration := 0;
          start_time := 0; end_time := 0; timer_handler := None;
          original_target := original_target (self w);
          presets := presets (self w) |};
     printer :=
       {| pheaters :=
            <[h := {| temperature := temperature o;
                      target := original_target (self w) |}]>
              (pheaters (printer w));
          lookup_reason := lookup_reason (printer w);
          idle_timeout := idle_timeout (printer w);
          clock := clock (printer w);
          clock_reads := clock_reads (printer w);
          timers := match timer_handler (self w) with
                    | Some handle => delete handle (timers (printer w))
                    | None => timers (printer w)
                    end;
          timer_count := timer_count (printer w);
          responses :=
            (responses (printer w) ++
               [respond_info [Lit "Filament drying stopped"]])%list |} |}.

Definition started (temp duration : Q) (h : string) (o : heater_obj)
    (w : world) : world :=
  let p := printer w in
  let n := clock_reads p in
  {| self :=
       {| heater_name := heater_name (self w); heater := Some h;
          is_drying := true; target_temp := temp; duration := duration;
          start_time := clock p (S n);
          end_time := clock p (S n) + duration;
          timer_handler := Some (timer_count p);
          original_target := target o;
          presets := presets (self w) |};
     printer :=
       {| pheaters :=
            <[h := {| temperature := temperature o; target := temp |}]>
              (pheaters p);
          lookup_reason := lookup_reason p;
          idle_timeout := match idle_timeout p with
                          | Some _ => Some "Printing"
                          | None => None
                          end;
          clock := clock p;
          clock_reads := S (S (S n));
          timers := <[timer_count p := At (clock p (S (S n)) + 1)]> (timers p);
          timer_count := S (timer_count p);
          responses :=
            (responses p ++
               [respond_info
                  [Fmt "Started filament drying: %.1f°C for %.1f hours"
                       [Num temp; Num (duration / 3600)]]])%list |} |}.

(** The world after one more response. *)
Definition responded (o : output) (w : world) : world :=
  {| self := self w; printer := with_responses (responses (printer w) ++ [o])%list (printer w) |}.

(** What the timer callback announces on a five-minute boundary, and what
    [DRYER_STATUS] answers during a cycle, for the heater reading [o]. *)
Definition progress_report (eventtime : Q) (o : heater_obj) (w : world) : output :=
  let d := self w in
  run_script_from_command
    [Lit "M118 ";
     Fmt progress_template
         [Num (default 0 (temperature o));
          Num ((eventtime - start_time d) / duration d * 100);
          Num ((eventtime - start_time d) / 3600);
          Num ((end_time d - eventtime) / 3600)]].

(** The world after one reading of the clock. *)
Definition clock_read (w : world) : world :=
  {| self := self w;
     printer := with_clock_reads (S (clock_reads (printer w))) (printer w) |}.

(** The active report; the clock reading is the one about to be taken. *)
Definition status_report (o : heater_obj) (w : world) : output :=
  let d := self w in
  let current_time := clock (printer w) (clock_reads (printer w)) in
  respond_info
    [Fmt status_template
         [Num (target_temp d); Num (default 0 (temperature o));
          Num (duration d / 3600);
          Num ((current_time - start_time d) / 3600);
          Num ((end_time d - current_time) / 3600);
          Num ((current_time - start_time d) / duration d * 100)]].

(** The text [LIST_DRYER_PRESETS] responds with. *)
Definition preset_listing (m : gmap string preset.t) : text :=
  if decide (m = ∅) then [Lit "No presets configured"]
  else foldl preset_line [Lit ("Available Drying Presets:" +:+ nl)] (sorted_items m).

(** The preset table and the heater name are those of the configuration. *)
Definition static_of (cfg : config) (w : world) : Prop :=
  presets (self w) = presets (__init__ cfg) /\
  heater_name (self w) = heater_name (__init__ cfg).


(** A preset with key [k] and settings [s] comes from a name of the
    [presets] option whose two options are both set. *)
Definition registered (cfg : config) (k : string) (s : preset.t) : Prop :=
  exists name hours,
    k = lower name /\ truthy name = true /\
    config_getfloat cfg ("preset_" +:+ name +:+ "_temp") = Some (preset.temp s) /\
    config_getfloat cfg ("preset_" +:+ name +:+ "_duration") = Some hours /\
    preset.duration s = hours * 3600.

(** The argument tuple of the listing line of one preset. *)
Definition preset_entry (item : string * preset.t) : string * Q * Q :=
  (upper item.1, preset.temp item.2, preset.duration item.2 / 3600).

(** The entries a response text carries: the argument tuples of its
    [preset_template] pieces. *)
Definition entry_of (x : piece) : option (string * Q * Q) :=
  match x with
  | Fmt _ [Str name; Num temp; Num hours] => Some (name, temp, hours)
  | _ => None
  end.

Definition listed_entries (response : text) : list (string * Q * Q) :=
  omap entry_of response.

(** ** A test bench

    A configuration with the single preset [petg] (70 degrees, 4 hours), a
    host with the default heater at target 5, and a clock that reads 100,
    101, 102, ... *)
Definition petg_config : config :=
  {| config_get := fun option =>
       if String.eqb option "presets" then Some "petg" else None;
     config_getfloat := fun option =>
       if String.eqb option "preset_petg_temp" then Some 70
       else if String.eqb option "preset_petg_duration" then Some 4
       else None |}.

Definition bench : host :=
  {| pheaters := {[ "heater_box" := {| temperature := Some 21; target := 5 |} ]};
     lookup_reason := "Unknown heater 'heater_box'";
     idle_timeout := Some "Idle";
     clock := fun n => 100 + inject_Z (Z.of_nat n);
     clock_reads := 0;
     timers := ∅;
     timer_count := 0;
     responses := [] |}.

Definition idle_world : world := load_config petg_config bench.

(** [START_FILAMENT_DRYING PRESET=petg] *)
Definition start_petg : call :=
  START_FILAMENT_DRYING {| PRESET := Some "petg"; TEMP := None; DURATION := None |}.

Definition drying_world : world := perform start_petg idle_world.

(** [START_FILAMENT_DRYING TEMP=50 DURATION=-1] *)
Definition start_negative : call :=
  START_FILAMENT_DRYING {| PRESET := None; TEMP := Some 50; DURATION := Some (-1) |}.

Definition negative_world : world := perform start_negative idle_world.

(** [START_FILAMENT_DRYING TEMP=50 DURATION=0] *)
Definition start_zero : call :=
  START_FILAMENT_DRYING {| PRESET := None; TEMP := Some 50; DURATION := Some 0 |}.

Definition zero_world : world := perform start_zero idle_world.

(** A configuration whose two presets list in one order and display in
    the other. *)
Definition underscore_config : config :=
  {| config_get := fun option =>
       if String.eqb option "presets" then Some "aa, a_" else None;
     config_getfloat := fun option => Some 1 |}.

(** ** Further notions

    Used by the properties beyond the claims. *)

(** The world in which the heater handle has been cached. *)
Definition resolved (w : world) : world :=
  {| self := with_heater (Some (heater_name (self w))) (self w);
     printer := printer w |}.

(** The world in which an object [o] is registered under the configured
    heater name. *)
Definition with_heater_object (o : heater_obj) (w : world) : world :=
  {| self := self w;
     printer := with_pheaters
                  (<[heater_name (self w) := o]> (pheaters (printer w)))
                  (printer w) |}.

(** The names of the [presets] option, as [__init__] walks them. *)
Definition preset_names (cfg : config) : list string :=
  split_comma (default "" (config_get cfg "presets")).

(** The characters of a string. *)
Definition chars (s : string) : list ascii := list_ascii_of_string s.

(** The reactor timers of a world reached from the host [p]: those of
    [p] are all still there, and beyond them there is the timer whose
    handle the instance holds and nothing else. *)
Definition timers_tracked (p : host) (w : world) : Prop :=
  (timer_count p <= timer_count (printer w))%nat /\
  (forall h, (h < timer_count p)%nat ->
             timers (printer w) !! h = timers p !! h) /\
  (forall h, (timer_count p <= h)%nat ->
             (is_Some (timers (printer w) !! h) <->
              timer_handler (self w) = Some h)) /\
  (forall h, timer_handler (self w) = Some h ->
             (timer_count p <= h < timer_count (printer w))%nat).

(** The heater registry of a world reached from [p] under [cfg]: the same
    names, the same temperature readings, and the same objects except
    under the configured name. *)
Definition heaters_tracked (cfg : config) (p : host) (w : world) : Prop :=
  heater_name (self w) = heater_name (__init__ cfg) /\
  dom (pheaters (printer w)) = dom (pheaters p) /\
  (forall h, h <> heater_name (__init__ cfg) ->
             pheaters (printer w) !! h = pheaters p !! h) /\
  (forall h, temperature <$> pheaters (printer w) !! h =
             temperature <$> pheaters p !! h).

(** The idle monitor in a world reached from [p]: absent if it was
    absent, otherwise as it was or ["Printing"], and ["Printing"] during a
    cycle. *)
Definition idle_timeout_tracked (p : host) (w : world) : Prop :=
  (idle_timeout p = None -> idle_timeout (printer w) = None) /\
  (idle_timeout (printer w) = idle_timeout p \/
   idle_timeout (printer w) = Some "Printing" /\ idle_timeout p <> None) /\
  (is_drying (self w) = true -> idle_timeout p <> None ->
   idle_timeout (printer w) = Some "Printing").

(** The calls that only ask. *)
Definition read_only (c : call) : bool :=
  match c with
  | DRYER_STATUS | LIST_DRYER_PRESETS | status_query _ => true
  | _ => false
  end.


(** The bench without any heater. *)
Definition bare_world : world :=
  load_config petg_config (with_pheaters ∅ bench).

(** A string of ASCII characters only. *)
Definition ascii_only (s : string) : bool :=
  forallb (fun c => (nat_of_ascii c <? 128)%nat) (chars s).

(** ** Binary64

    The numbers the host hands in are binary64 floats.  Their sum is the
    machine's, and each finite one is a rational. *)
Module binary64.
Import PrimFloat FloatOps SpecFloat.

(** The rational a finite float stands for, in lowest terms. *)
Definition to_Q (f : float) : option Q :=
  match Prim2SF f with
  | S754_zero _ => Some 0
  | S754_finite s m e =>
      let v := inject_Z (Zpos m) * 2 ^ e in
      Some (Qred (if s then - v else v))
  | _ => None
  end.

(** [f + 300.0], as the machine adds: rounded to the nearest float. *)
Definition plus_300 (f : float) : float := (f + 300)%float.

(** The float nearest to 1048575.9. *)
Definition late_start : float := 0x1.fffffcccccccdp+19%float.

(** Whether the two hour values of the progress message, computed as the
    callback computes them, add up to the duration in hours. *)
Definition hours_add_up (start_time duration eventtime : float) : bool :=
  let end_time := (start_time + duration)%float in
  let remaining := (end_time - eventtime)%float in
  let remaining_hours := (remaining / 3600)%float in
  let elapsed_hours := ((eventtime - start_time) / 3600)%float in
  (elapsed_hours + remaining_hours =? duration / 3600)%float.

(** A cycle of 10000 seconds started at 101 and seen at 401: the elapsed
    time is 300 on the dot. *)
Definition on_the_dot : bool := (401 - 101 =? 300)%float.
Definition on_the_dot_hours_add_up : bool := hours_add_up 101 10000 401.

End binary64.

(** The bench with a clock that stands at [binary64.late_start]. *)
Definition late_bench : host :=
  {| pheaters := pheaters bench;
     lookup_reason := lookup_reason bench;
     idle_timeout := idle_timeout bench;
     clock := fun _ => default 0 (binary64.to_Q binary64.late_start);
     clock_reads := 0;
     timers := ∅;
     timer_count := 0;
     responses := [] |}.

(** [START_FILAMENT_DRYING TEMP=50 DURATION=1] on it. *)
Definition late_world : world :=
  perform
    (START_FILAMENT_DRYING {| PRESET := None; TEMP := Some 50; DURATION := Some 1 |})
    (load_config petg_config late_bench).

(** * Properties *)

(** ** Symbolic execution of the methods *)

Ltac open_world w :=
  destruct w as [[hn hc dr tt du st et th ot ps] [ph lr it ck cr tm tc rs]];
  cbn [self printer heater_name heater is_drying target_temp duration
       start_time end_time timer_handler original_target presets
       pheaters lookup_reason idle_timeout clock clock_reads timers
       timer_count responses] in *.

Ltac unfold_methods :=
  unfold _start_drying, _stop_drying, _stop_timer, _get_heater,
    heater_set_temp, heater_get_status, unregister_timer, register_timer,
    monotonic, emit, idle_timeout_set_printing, py_div,
    get_self, get_printer, set_self, set_printer, raise,
    mbind, mret, M_bind, M_ret.

Ltac run := unfold_methods; cbn.

Lemma _stop_drying_idle w :
  is_drying (self w) = false -> _stop_drying w = (Ok tt, w).
Proof. open_world w. intros ->. reflexivity. Qed.

Lemma _stop_drying_active w h o :
  is_drying (self w) = true ->
  heater (self w) = Some h ->
  pheaters (printer w) !! h = Some o ->
  _stop_drying w = (Ok tt, stopped h o w).
Proof.
  open_world w. intros -> -> Ho. unfold stopped. run.
  destruct th; cbn; rewrite Ho; reflexivity.
Qed.

Lemma _start_drying_busy w temp duration :
  is_drying (self w) = true ->
  _start_drying temp duration w =
    (Raised (command_error [Lit "Drying cycle already in progress"]), w).
Proof. open_world w. intros ->. reflexivity. Qed.

Lemma _start_drying_ok w temp duration h o :
  is_drying (self w) = false ->
  resolve w = Some (h, o) ->
  _start_drying temp duration w = (Ok tt, started temp duration h o w).
Proof.
  open_world w. intros ->. unfold resolve, started. cbn. intros Hr. run.
  destruct hc as [h'|]; cbn in *;
    (destruct (ph !! _) as [o'|] eqn:Ho; cbn in Hr; inversion Hr; subst; clear Hr);
    cbn; rewrite ?Ho; cbn; destruct it; cbn; rewrite Ho; reflexivity.
Qed.

Lemma _start_drying_no_heater w temp duration :
  is_drying (self w) = false ->
  heater (self w) = None ->
  pheaters (printer w) !! heater_name (self w) = None ->
  _start_drying temp duration w =
    (Raised (command_error
       [Fmt "Filament dryer: Unable to find heater '%s': %s"
            [Str (heater_name (self w)); Str (lookup_reason (printer w))]]), w).
Proof. open_world w. intros -> -> Ho. run. rewrite Ho. reflexivity. Qed.

Lemma _timer_callback_idle w eventtime :
  is_drying (self w) = false -> _timer_callback eventtime w = (Ok NEVER, w).
Proof. open_world w. intros ->. reflexivity. Qed.

Lemma _timer_callback_due w eventtime :
  is_drying (self w) = true ->
  py_le (end_time (self w) - eventtime) 0 = true ->
  _timer_callback eventtime w =
    let w1 := responded (respond_info [Lit "Filament drying cycle complete!"]) w in
    match _stop_drying w1 with
    | (Ok _, w2) => (Ok NEVER, w2)
    | (Raised e, w2) => (Raised e, w2)
    end.
Proof.
  open_world w. intros -> Hle. unfold _timer_callback. 
  unfold mbind, M_bind, get_self at 1. cbn. rewrite Hle. 
  reflexivity.
Qed.

Lemma _timer_callback_running w eventtime h o :
  is_drying (self w) = true ->
  py_le (end_time (self w) - eventtime) 0 = false ->
  heater (self w) = Some h ->
  pheaters (printer w) !! h = Some o ->
  _timer_callback eventtime w =
    if (py_mod (py_int (eventtime - start_time (self w))) 300 =? 0)%Z then
      if Qeq_bool (duration (self w)) 0 then (Raised ZeroDivisionError, w)
      else (Ok (At (eventtime + 1)), responded (progress_report eventtime o w) w)
    else (Ok (At (eventtime + 1)), w).
Proof.
  open_world w. intros -> Hle -> Ho. unfold _timer_callback, progress_report, responded.
  unfold mbind, M_bind, get_self at 1. cbn. rewrite Hle.
  destruct (py_mod _ _ =? 0)%Z; [|reflexivity].
  run. destruct (Qeq_bool du 0); [reflexivity|]. cbn. rewrite Ho. reflexivity.
Qed.

Lemma cmd_DRYER_STATUS_idle w :
  is_drying (self w) = false ->
  cmd_DRYER_STATUS w = (Ok tt, responded (respond_info [Lit "Dryer Status: Idle"]) w).
Proof. open_world w. intros ->. reflexivity. Qed.

Lemma cmd_DRYER_STATUS_active w h o :
  is_drying (self w) = true ->
  heater (self w) = Some h ->
  pheaters (printer w) !! h = Some o ->
  cmd_DRYER_STATUS w =
    if Qeq_bool (duration (self w)) 0 then (Raised ZeroDivisionError, clock_read w)
    else (Ok tt, responded (status_report o w) (clock_read w)).
Proof.
  open_world w. intros -> -> Ho. unfold cmd_DRYER_STATUS, status_report, responded, clock_read.
  run. destruct (Qeq_bool du 0); [reflexivity|]. cbn. rewrite Ho. reflexivity.
Qed.

Lemma cmd_LIST_DRYER_PRESETS_eq w :
  cmd_LIST_DRYER_PRESETS w =
    (Ok tt, responded (respond_info (preset_listing (presets (self w)))) w).
Proof.
  open_world w. unfold cmd_LIST_DRYER_PRESETS, preset_listing. run.
  destruct (decide (ps = ∅)); reflexivity.
Qed.

Lemma cmd_STOP_FILAMENT_DRYING_idle w :
  is_drying (self w) = false ->
  cmd_STOP_FILAMENT_DRYING w =
    (Ok tt, responded (respond_info [Lit "No drying cycle in progress"]) w).
Proof. open_world w. intros ->. reflexivity. Qed.

Lemma cmd_STOP_FILAMENT_DRYING_active w :
  is_drying (self w) = true ->
  cmd_STOP_FILAMENT_DRYING w = _stop_drying w.
Proof. open_world w. intros ->. reflexivity. Qed.

Lemma start_parameters_pure g w r w' :
  start_parameters g w = (r, w') -> w' = w.
Proof.
  unfold start_parameters, preset_parameters, manual_parameters. run.
  destruct (PRESET g) as [p|]; [destruct (truthy p)|];
    repeat case_match; intros [= <- <-]; reflexivity.
Qed.

Lemma cmd_START_FILAMENT_DRYING_eq g w :
  cmd_START_FILAMENT_DRYING g w =
    match start_parameters g w with
    | (Ok (temp, duration), w') => _start_drying temp duration w'
    | (Raised e, w') => (Raised e, w')
    end.
Proof.
  unfold cmd_START_FILAMENT_DRYING. unfold mbind, M_bind.
  destruct (start_parameters g w) as [[[t d]|e] w']; reflexivity.
Qed.

Lemma get_status_pure eventtime w :
  exists status, get_status eventtime w = (Ok status, w).
Proof.
  open_world w. unfold get_status, py_gt. run. destruct dr; [|eauto].
  destruct (Qle_bool du 0) eqn:Hd; cbn; [eauto|].
  destruct (Qeq_bool du 0) eqn:He; cbn; [|eauto].
  apply Qeq_bool_eq in He. rewrite He in Hd. discriminate.
Qed.

Lemma consistent_init cfg p : consistent (load_config cfg p).
Proof. split; cbn; try done. Qed.

Lemma consistent_frame w w' :
  self w' = self w ->
  pheaters (printer w') = pheaters (printer w) ->
  consistent w -> consistent w'.
Proof. intros Hs Hp [H1 H2 H3 H4 H5]. split; rewrite ?Hs, ?Hp; assumption. Qed.

Lemma consistent_resolve w :
  consistent w -> is_drying (self w) = true ->
  exists h o, heater (self w) = Some h /\ h = heater_name (self w) /\
              pheaters (printer w) !! h = Some o.
Proof.
  intros Hc Hd. destruct (heater (self w)) as [h|] eqn:Hh.
  - destruct (handle_is_registered w Hc h Hh) as [-> [o Ho]]. eauto.
  - destruct (drying_has_heater w Hc Hd Hh).
Qed.

Lemma resolve_cases w :
  consistent w ->
  (exists o, resolve w = Some (heater_name (self w), o) /\
             pheaters (printer w) !! heater_name (self w) = Some o) \/
  (heater (self w) = None /\
   pheaters (printer w) !! heater_name (self w) = None).
Proof.
  intros Hc. unfold resolve. destruct (heater (self w)) as [h|] eqn:Hh; cbn.
  - destruct (handle_is_registered w Hc h Hh) as [-> [o Ho]].
    left. exists o. rewrite Ho. done.
  - destruct (pheaters (printer w) !! heater_name (self w)) as [o|] eqn:Ho; cbn.
    + left. eauto.
    + right. done.
Qed.

Lemma consistent_stopped w o :
  consistent w ->
  consistent (stopped (heater_name (self w)) o w).
Proof.
  intros Hc. split; cbn; try done.
  intros h [= <-]. split; [done|]. rewrite lookup_insert_eq. eauto.
Qed.

Lemma consistent_started w temp duration o :
  consistent w ->
  consistent (started temp duration (heater_name (self w)) o w).
Proof.
  intros Hc. split; cbn; try done.
  intros h [= <-]. split; [done|]. rewrite lookup_insert_eq. eauto.
Qed.

Lemma consistent_responded o w : consistent w -> consistent (responded o w).
Proof. apply consistent_frame; reflexivity. Qed.

Lemma consistent_clock_read w : consistent w -> consistent (clock_read w).
Proof. apply consistent_frame; reflexivity. Qed.

(** The three ways [_start_drying] can end from a consistent world. *)
Lemma _start_drying_cases w temp duration :
  consistent w ->
  (is_drying (self w) = true /\
   _start_drying temp duration w =
     (Raised (command_error [Lit "Drying cycle already in progress"]), w)) \/
  (is_drying (self w) = false /\
   pheaters (printer w) !! heater_name (self w) = None /\
   _start_drying temp duration w =
     (Raised (command_error
        [Fmt "Filament dryer: Unable to find heater '%s': %s"
             [Str (heater_name (self w)); Str (lookup_reason (printer w))]]), w)) \/
  (exists o, is_drying (self w) = false /\
     pheaters (printer w) !! heater_name (self w) = Some o /\
     _start_drying temp duration w =
       (Ok tt, started temp duration (heater_name (self w)) o w)).
Proof.
  intros Hc. destruct (is_drying (self w)) eqn:Hd.
  - left. split; [done|]. by apply _start_drying_busy.
  - right. destruct (resolve_cases w Hc) as [(o & Hr & Ho)|[Hh Ho]].
    + right. exists o. split; [done|]. split; [done|]. by apply _start_drying_ok.
    + left. split; [done|]. split; [done|]. by apply _start_drying_no_heater.
Qed.

Lemma _stop_drying_cases w :
  consistent w ->
  (is_drying (self w) = false /\ _stop_drying w = (Ok tt, w)) \/
  (exists o, is_drying (self w) = true /\
     pheaters (printer w) !! heater_name (self w) = Some o /\
     _stop_drying w = (Ok tt, stopped (heater_name (self w)) o w)).
Proof.
  intros Hc. destruct (is_drying (self w)) eqn:Hd.
  - right. destruct (consistent_resolve w Hc Hd) as (h & o & Hh & -> & Ho).
    exists o. split; [done|]. split; [done|]. by apply _stop_drying_active.
  - left. split; [done|]. by apply _stop_drying_idle.
Qed.

(** Every call moves a consistent world by a few elementary changes, so a
    property kept by those is kept by every call. *)
Section Calls.
Variable P : world -> Prop.
Hypothesis P_responded : forall w o, P w -> P (responded o w).
Hypothesis P_clock_read : forall w, P w -> P (clock_read w).
Hypothesis P_stopped : forall w o,
  consistent w -> is_drying (self w) = true ->
  pheaters (printer w) !! heater_name (self w) = Some o ->
  P w -> P (stopped (heater_name (self w)) o w).
Hypothesis P_started : forall w temp duration o,
  consistent w -> is_drying (self w) = false ->
  pheaters (printer w) !! heater_name (self w) = Some o ->
  P w -> P (started temp duration (heater_name (self w)) o w).

Lemma _stop_drying_keeps w : consistent w -> P w -> P (_stop_drying w).2.
Proof using P_stopped.
  intros Hc Hw.
  destruct (_stop_drying_cases w Hc) as [[_ ->]|(o & ? & ? & ->)]; cbn; auto.
Qed.

Lemma _start_drying_keeps w temp duration :
  consistent w -> P w -> P (_start_drying temp duration w).2.
Proof using P_started.
  intros Hc Hw.
  destruct (_start_drying_cases w temp duration Hc)
    as [[_ ->]|[(_ & _ & ->)|(o & ? & ? & ->)]]; cbn; auto.
Qed.

Lemma _timer_callback_keeps w eventtime :
  consistent w -> P w -> P (_timer_callback eventtime w).2.
Proof using P_responded P_stopped.
  intros Hc Hw. destruct (is_drying (self w)) eqn:Hd.
  - destruct (consistent_resolve w Hc Hd) as (h & o & Hh & -> & Ho).
    destruct (py_le (end_time (self w) - eventtime) 0) eqn:Hle.
    + rewrite (_timer_callback_due w eventtime Hd Hle). cbn zeta.
      set (w1 := responded _ w).
      assert (P (_stop_drying w1).2) as Hs
        by (apply _stop_drying_keeps; [by apply consistent_responded|by apply P_responded]).
      destruct (_stop_drying w1) as [[[]|e] w2]; exact Hs.
    + rewrite (_timer_callback_running w eventtime _ o Hd Hle Hh Ho).
      repeat case_match; cbn; auto.
  - by rewrite (_timer_callback_idle w eventtime Hd).
Qed.

Lemma perform_keeps c w : consistent w -> P w -> P (perform c w).
Proof using All.
  intros Hc Hw. destruct c as [g| | | |t|t|temp dur|]; cbn [perform].
  - rewrite cmd_START_FILAMENT_DRYING_eq.
    destruct (start_parameters g w) as [[[temp dur]|e] w'] eqn:Hp;
      apply start_parameters_pure in Hp as ->; [|done].
    by apply _start_drying_keeps.
  - destruct (is_drying (self w)) eqn:Hd.
    + rewrite (cmd_STOP_FILAMENT_DRYING_active w Hd). by apply _stop_drying_keeps.
    + rewrite (cmd_STOP_FILAMENT_DRYING_idle w Hd). by apply P_responded.
  - destruct (is_drying (self w)) eqn:Hd.
    + destruct (consistent_resolve w Hc Hd) as (h & o & Hh & -> & Ho).
      rewrite (cmd_DRYER_STATUS_active w _ o Hd Hh Ho).
      case_match; cbn; auto.
    + rewrite (cmd_DRYER_STATUS_idle w Hd). by apply P_responded.
  - rewrite cmd_LIST_DRYER_PRESETS_eq. by apply P_responded.
  - by apply _timer_callback_keeps.
  - destruct (get_status_pure t w) as [s ->]. done.
  - by apply _start_drying_keeps.
  - by apply _stop_drying_keeps.
Qed.
End Calls.

Lemma perform_consistent c w : consistent w -> consistent (perform c w).
Proof.
  intros Hc. apply perform_keeps; try done.
  - intros. by apply consistent_responded.
  - intros. by apply consistent_clock_read.
  - intros. by apply consistent_stopped.
  - intros. by apply consistent_started.
Qed.

Lemma reachable_consistent cfg p w : reachable cfg p w -> consistent w.
Proof.
  induction 1 as [|w c _ IH]; [apply consistent_init|by apply perform_consistent].
Qed.

Lemma reachable_static cfg p w : reachable cfg p w -> static_of cfg w.
Proof.
  induction 1 as [|w c Hr IH]; [done|].
  apply (perform_keeps (static_of cfg)); try done.
  by eapply reachable_consistent.
Qed.

(** The methods never find a heater handle without its object. *)
Lemma stale_handle_not_raised cfg p w :
  reachable cfg p w ->
  (forall temp seconds, (_start_drying temp seconds w).1 <> Raised stale_handle) /\
  (_stop_drying w).1 <> Raised stale_handle /\
  (forall eventtime, (_timer_callback eventtime w).1 <> Raised stale_handle) /\
  (cmd_DRYER_STATUS w).1 <> Raised stale_handle.
Proof.
  intros Hr. pose proof (reachable_consistent cfg p w Hr) as Hc.
  assert (forall w, consistent w -> (_stop_drying w).1 <> Raised stale_handle) as Hstop.
  { intros w1 Hc1.
    by destruct (_stop_drying_cases w1 Hc1) as [[_ ->]|(o & _ & _ & ->)]. }
  split; [|split; [by apply Hstop|split]].
  - intros temp seconds.
    by destruct (_start_drying_cases w temp seconds Hc)
      as [[_ ->]|[(_ & _ & ->)|(o & _ & _ & ->)]].
  - intros eventtime. destruct (is_drying (self w)) eqn:Hd.
    + destruct (consistent_resolve w Hc Hd) as (h & o & Hh & -> & Ho).
      destruct (py_le (end_time (self w) - eventtime) 0) eqn:Hle.
      * rewrite (_timer_callback_due w eventtime Hd Hle). cbn zeta.
        pose proof (Hstop _ (consistent_responded
          (respond_info [Lit "Filament drying cycle complete!"]) w Hc)) as Hs.
        destruct (_stop_drying _) as [[[]|e] w2]; cbn in *; congruence.
      * rewrite (_timer_callback_running w eventtime _ o Hd Hle Hh Ho).
        by repeat case_match.
    + by rewrite (_timer_callback_idle w eventtime Hd).
  - destruct (is_drying (self w)) eqn:Hd.
    + destruct (consistent_resolve w Hc Hd) as (h & o & Hh & -> & Ho).
      rewrite (cmd_DRYER_STATUS_active w _ o Hd Hh Ho). by case_match.
    + by rewrite (cmd_DRYER_STATUS_idle w Hd).
Qed.

(** ** The claims *)


Lemma reachable_idle_world : reachable petg_config bench idle_world.
Proof. apply reachable_init. Qed.

Lemma reachable_drying_world : reachable petg_config bench drying_world.
Proof. apply reachable_step, reachable_init. Qed.

Lemma stop_leaves_idle w w' :
  _stop_drying w = (Ok tt, w') -> is_drying (self w') = false.
Proof.
  open_world w. run. destruct dr; cbn; [|by intros [= <-]].
  repeat (case_match; cbn); intros [= <-]; reflexivity.
Qed.

Lemma run_ticks_idle times w :
  is_drying (self w) = false -> run_ticks times w = w.
Proof.
  intros Hd. unfold run_ticks. induction times as [|t times IH]; cbn; [done|].
  by rewrite (_timer_callback_idle w t Hd).
Qed.

Lemma cmd_STOP_FILAMENT_DRYING_leaves_idle w w' :
  cmd_STOP_FILAMENT_DRYING w = (Ok tt, w') -> is_drying (self w') = false.
Proof.
  destruct (is_drying (self w)) eqn:Hd.
  - rewrite (cmd_STOP_FILAMENT_DRYING_active w Hd). apply stop_leaves_idle.
  - rewrite (cmd_STOP_FILAMENT_DRYING_idle w Hd). by intros [= <-].
Qed.

(** C5.  A firing of the timer callback that finds no cycle in progress,
    in particular any firing after a stop has returned, answers [NEVER] and
    changes nothing: no heater write, no response, no attribute.  The same
    holds of any number of such firings. *)
Theorem stale_tick_is_inert (w0 w : world) (now : Q) (times : list Q) :
  is_drying (self w) = false \/
  _stop_drying w0 = (Ok tt, w) \/
  cmd_STOP_FILAMENT_DRYING w0 = (Ok tt, w) ->
  _timer_callback now w = (Ok NEVER, w) /\ run_ticks times w = w.
Proof.
  intros H.
  assert (is_drying (self w) = false) as Hd.
  { destruct H as [H|[H|H]]; [done| |].
    - by eapply stop_leaves_idle.
    - by eapply cmd_STOP_FILAMENT_DRYING_leaves_idle. }
  split; [by apply _timer_callback_idle|by apply run_ticks_idle].
Qed.

Lemma stale_tick_is_inert_witness :
  let w := (_stop_drying drying_world).2 in
  _timer_callback 250 w = (Ok NEVER, w) /\ run_ticks [251; 252; 253] w = w.
Proof.
  apply (stale_tick_is_inert drying_world). right. left. vm_compute. reflexivity.
Defined.

(** C2.  A start request during a cycle is refused with the "already in
    progress" error, and a start that fails, whether called directly or
    through the command, leaves the whole world as it was: every attribute
    of the instance, the heater and its target, the timers, the clock. *)
Theorem failing_start_changes_nothing (cfg : config) (p : host) (w : world)
    (temp duration : Q) (g : gcmd) :
  reachable cfg p w ->
  (is_drying (self w) = true ->
   _start_drying temp duration w =
     (Raised (command_error [Lit "Drying cycle already in progress"]), w)) /\
  (forall e w', _start_drying temp duration w = (Raised e, w') -> w' = w) /\
  (forall e w', cmd_START_FILAMENT_DRYING g w = (Raised e, w') -> w' = w).
Proof.
  intros Hr. pose proof (reachable_consistent cfg p w Hr) as Hc.
  assert (forall t d e w', _start_drying t d w = (Raised e, w') -> w' = w) as Hs.
  { intros t d e w'.
    destruct (_start_drying_cases w t d Hc)
      as [[_ ->]|[(_ & _ & ->)|(o & _ & _ & ->)]]; by intros [= <-]. }
  split; [by apply _start_drying_busy|]. split; [by apply Hs|].
  intros e w'. rewrite cmd_START_FILAMENT_DRYING_eq.
  destruct (start_parameters g w) as [[[t d]|e'] w1] eqn:Hp;
    apply start_parameters_pure in Hp as ->; [by apply Hs|by intros [= <-]].
Qed.

Lemma failing_start_changes_nothing_witness :
  (is_drying (self drying_world) = true ->
   _start_drying 50 3600 drying_world =
     (Raised (command_error [Lit "Drying cycle already in progress"]),
      drying_world)) /\
  (forall e w', _start_drying 50 3600 drying_world = (Raised e, w') ->
                w' = drying_world) /\
  (forall e w',
     cmd_START_FILAMENT_DRYING
       {| PRESET := None; TEMP := Some 50; DURATION := Some 1 |} drying_world
       = (Raised e, w') -> w' = drying_world).
Proof.
  apply (failing_start_changes_nothing petg_config bench).
  apply reachable_step, reachable_init.
Defined.

(** C3.  In every world reached from the freshly loaded instance by any
    sequence of calls, a timer handle is held exactly when a cycle is in
    progress. *)
Theorem timer_held_iff_drying (cfg : config) (p : host) (w : world) :
  reachable cfg p w ->
  (timer_handler (self w) <> None <-> is_drying (self w) = true).
Proof. intros Hr. apply (timer_iff_drying w), (reachable_consistent cfg p w Hr). Qed.

Lemma timer_held_iff_drying_witness :
  timer_handler (self drying_world) <> None <->
  is_drying (self drying_world) = true.
Proof.
  apply (timer_held_iff_drying petg_config bench).
  apply reachable_step, reachable_init.
Defined.

Lemma py_le_due (deadline now : Q) :
  deadline <= now -> py_le (deadline - now) 0 = true.
Proof. intros H. unfold py_le. apply Qle_bool_iff. lra. Qed.

(** C1.  When the timer callback fires during a cycle at or after the
    deadline, it announces completion, does exactly what [_stop_drying]
    does from there (the timer is unregistered and the handle dropped, the
    heater goes back to the target saved at the start, the cycle attributes
    are cleared) and answers [NEVER]. *)
Theorem tick_at_deadline_completes (cfg : config) (p : host) (w : world)
    (now : Q) :
  reachable cfg p w ->
  is_drying (self w) = true ->
  end_time (self w) <= now ->
  let w1 := responded (respond_info [Lit "Filament drying cycle complete!"]) w in
  let w2 := (_timer_callback now w).2 in
  _timer_callback now w = (Ok NEVER, (_stop_drying w1).2) /\
  (_stop_drying w1).1 = Ok tt /\
  responses (printer w2) =
    (responses (printer w) ++
       [respond_info [Lit "Filament drying cycle complete!"];
        respond_info [Lit "Filament drying stopped"]])%list /\
  timer_handler (self w2) = None /\
  (forall handle, timer_handler (self w) = Some handle ->
                  timers (printer w2) !! handle = None) /\
  heater_target w2 = Some (original_target (self w)) /\
  is_drying (self w2) = false /\
  target_temp (self w2) = 0 /\ duration (self w2) = 0 /\
  start_time (self w2) = 0 /\ end_time (self w2) = 0.
Proof.
  intros Hr Hd Hle w1 w2.
  pose proof (reachable_consistent cfg p w Hr) as Hc.
  destruct (consistent_resolve w Hc Hd) as (h & o & Hh & -> & Ho).
  assert (_stop_drying w1 = (Ok tt, stopped (heater_name (self w)) o w1)) as Hs
    by (by apply _stop_drying_active).
  assert (_timer_callback now w = (Ok NEVER, (_stop_drying w1).2)) as Ht.
  { rewrite (_timer_callback_due w now Hd (py_le_due _ _ Hle)). cbn zeta.
    fold w1. by rewrite Hs. }
  subst w2. rewrite Ht, Hs. cbn.
  repeat split; try done.
  - by rewrite <- app_assoc.
  - intros handle ->. apply lookup_delete_eq.
  - unfold heater_target. cbn. by rewrite lookup_insert_eq.
Qed.

Lemma tick_at_deadline_completes_witness :
  let w := drying_world in
  let now := 14501 in
  let w1 := responded (respond_info [Lit "Filament drying cycle complete!"]) w in
  let w2 := (_timer_callback now w).2 in
  _timer_callback now w = (Ok NEVER, (_stop_drying w1).2) /\
  (_stop_drying w1).1 = Ok tt /\
  responses (printer w2) =
    (responses (printer w) ++
       [respond_info [Lit "Filament drying cycle complete!"];
        respond_info [Lit "Filament drying stopped"]])%list /\
  timer_handler (self w2) = None /\
  (forall handle, timer_handler (self w) = Some handle ->
                  timers (printer w2) !! handle = None) /\
  heater_target w2 = Some (original_target (self w)) /\
  is_drying (self w2) = false /\
  target_temp (self w2) = 0 /\ duration (self w2) = 0 /\
  start_time (self w2) = 0 /\ end_time (self w2) = 0.
Proof.
  apply (tick_at_deadline_completes petg_config bench).
  - apply reachable_step, reachable_init.
  - reflexivity.
  - vm_compute. discriminate.
Defined.

(** C4.  From an idle world whose configured heater exists, a start
    followed at once by a stop both succeed; the heater is then exactly as
    it was before the start, target included, and the instance is idle
    again with the cycle attributes at zero and no timer.  In between the
    heater target is the requested temperature and the saved target is the
    one read at the start. *)
Theorem start_then_stop_round_trip (cfg : config) (p : host) (w : world)
    (temp seconds : Q) (o : heater_obj) :
  reachable cfg p w ->
  is_drying (self w) = false ->
  pheaters (printer w) !! heater_name (self w) = Some o ->
  exists w1 w2,
    _start_drying temp seconds w = (Ok tt, w1) /\
    _stop_drying w1 = (Ok tt, w2) /\
    heater_target w1 = Some temp /\
    original_target (self w1) = target o /\
    heater_target w2 = Some (target o) /\
    heater_target w2 = heater_target w /\
    pheaters (printer w2) = pheaters (printer w) /\
    is_drying (self w2) = false /\
    target_temp (self w2) = 0 /\ duration (self w2) = 0 /\
    start_time (self w2) = 0 /\ end_time (self w2) = 0 /\
    timer_handler (self w2) = None /\
    timers (printer w2) = delete (timer_count (printer w)) (timers (printer w)) /\
    (is_drying (self w2), target_temp (self w2), duration (self w2),
     start_time (self w2), end_time (self w2), timer_handler (self w2)) =
    (is_drying (self w), target_temp (self w), duration (self w),
     start_time (self w), end_time (self w), timer_handler (self w)).
Proof.
  intros Hr Hd Ho.
  pose proof (reachable_consistent cfg p w Hr) as Hc.
  destruct (_start_drying_cases w temp seconds Hc)
    as [[Hd' _]|[(_ & Ho' & _)|(o' & _ & Ho' & Hs)]]; [congruence..|].
  assert (o' = o) as -> by congruence.
  set (w1 := started temp seconds (heater_name (self w)) o w) in *.
  assert (_stop_drying w1 = (Ok tt, stopped (heater_name (self w)) {| temperature := temperature o; target := temp |} w1)) as Hs'.
  { apply (_stop_drying_active w1); [done..|]. cbn. apply lookup_insert_eq. }
  exists w1, (stopped (heater_name (self w))
                {| temperature := temperature o; target := temp |} w1).
  destruct (idle_is_cleared w Hc Hd) as (Ht & Hdu & Hst & Het).
  assert (timer_handler (self w) = None) as Hth.
  { destruct (timer_handler (self w)) eqn:E; [|done].
    assert (is_drying (self w) = true); [|congruence].
    apply (timer_iff_drying w Hc). by rewrite E. }
  unfold heater_target. cbn. rewrite !lookup_insert_eq, Ho, Ht, Hdu, Hst, Het, Hd, Hth. cbn.
  repeat split; try done.
  - rewrite insert_insert_eq. apply insert_id. rewrite Ho. by destruct o.
  - by rewrite delete_insert_eq.
Qed.

Lemma start_then_stop_round_trip_witness :
  exists w1 w2,
    _start_drying 50 3600 idle_world = (Ok tt, w1) /\
    _stop_drying w1 = (Ok tt, w2) /\
    heater_target w1 = Some 50 /\
    original_target (self w1) = 5 /\
    heater_target w2 = Some 5 /\
    heater_target w2 = heater_target idle_world /\
    pheaters (printer w2) = pheaters (printer idle_world) /\
    is_drying (self w2) = false /\
    target_temp (self w2) = 0 /\ duration (self w2) = 0 /\
    start_time (self w2) = 0 /\ end_time (self w2) = 0 /\
    timer_handler (self w2) = None /\
    timers (printer w2) =
      delete (timer_count (printer idle_world)) (timers (printer idle_world)) /\
    (is_drying (self w2), target_temp (self w2), duration (self w2),
     start_time (self w2), end_time (self w2), timer_handler (self w2)) =
    (is_drying (self idle_world), target_temp (self idle_world),
     duration (self idle_world), start_time (self idle_world),
     end_time (self idle_world), timer_handler (self idle_world)).
Proof.
  apply (start_then_stop_round_trip petg_config bench idle_world 50 3600
           {| temperature := Some 21; target := 5 |}).
  - apply reachable_init.
  - reflexivity.
  - vm_compute. reflexivity.
Defined.


Lemma get_status_idle w eventtime :
  is_drying (self w) = false ->
  get_status eventtime w =
    (Ok (<["target_temp" := VNum (target_temp (self w))]>
           (<["is_drying" := VBool false]> ∅)), w).
Proof. open_world w. intros ->. reflexivity. Qed.

Lemma get_status_active w eventtime :
  is_drying (self w) = true ->
  get_status eventtime w =
    (Ok (<["progress" :=
             VNum (if py_gt (duration (self w)) 0
                   then (eventtime - start_time (self w)) / duration (self w) * 100
                   else 0)]>
           (<["remaining" := VNum (end_time (self w) - eventtime)]>
              (<["elapsed" := VNum (eventtime - start_time (self w))]>
                 (<["duration" := VNum (duration (self w))]>
                    (<["target_temp" := VNum (target_temp (self w))]>
                       (<["is_drying" := VBool true]> ∅)))))), w).
Proof.
  open_world w. intros ->. unfold get_status, py_gt. run.
  destruct (Qle_bool du 0) eqn:Hd; cbn; [reflexivity|].
  destruct (Qeq_bool du 0) eqn:He; cbn; [|reflexivity].
  apply Qeq_bool_eq in He. rewrite He in Hd. discriminate.
Qed.

Lemma py_gt_true (x y : Q) : y < x -> py_gt x y = true.
Proof.
  intros H. unfold py_gt. destruct (Qle_bool x y) eqn:E; [|done].
  apply Qle_bool_iff in E. lra.
Qed.

Lemma py_gt_false (x y : Q) : x <= y -> py_gt x y = false.
Proof. intros H. unfold py_gt. apply Qle_bool_iff in H. by rewrite H. Qed.

(** C6, amended.  [get_status] returns and leaves the world as it was.
    When idle the dictionary is exactly [is_drying = False],
    [target_temp = 0], with none of the cycle keys.  During a cycle it
    carries the duration, the elapsed and the remaining time, and a
    progress that is elapsed/duration*100 when the duration is positive
    and 0 when the duration is zero or negative. *)
Theorem status_query_is_pure (cfg : config) (p : host) (w : world) (now : Q) :
  reachable cfg p w ->
  exists status,
    get_status now w = (Ok status, w) /\
    (is_drying (self w) = false ->
     status = <["target_temp" := VNum 0]> (<["is_drying" := VBool false]> ∅) /\
     status !! "duration" = None /\ status !! "elapsed" = None /\
     status !! "remaining" = None /\ status !! "progress" = None) /\
    (is_drying (self w) = true ->
     status !! "is_drying" = Some (VBool true) /\
     status !! "target_temp" = Some (VNum (target_temp (self w))) /\
     status !! "duration" = Some (VNum (duration (self w))) /\
     status !! "elapsed" = Some (VNum (now - start_time (self w))) /\
     status !! "remaining" = Some (VNum (end_time (self w) - now)) /\
     exists progress,
       status !! "progress" = Some (VNum progress) /\
       (0 < duration (self w) ->
        progress = (now - start_time (self w)) / duration (self w) * 100) /\
       (duration (self w) <= 0 -> progress = 0)).
Proof.
  intros Hr. pose proof (reachable_consistent cfg p w Hr) as Hc.
  destruct (is_drying (self w)) eqn:Hd.
  - eexists. split; [by apply get_status_active|]. split; [done|]. intros _.
    repeat (split; [by simplify_map_eq|]).
    eexists. split; [by simplify_map_eq|]. split; intros H.
    + by rewrite py_gt_true.
    + by rewrite py_gt_false.
  - eexists. split; [by apply get_status_idle|]. split; [|done]. intros _.
    destruct (idle_is_cleared w Hc Hd) as (-> & _). 
    split; [done|]. repeat split; by simplify_map_eq.
Qed.

Lemma status_query_is_pure_witness :
  exists status,
    get_status 401 drying_world = (Ok status, drying_world) /\
    (is_drying (self drying_world) = false ->
     status = <["target_temp" := VNum 0]> (<["is_drying" := VBool false]> ∅) /\
     status !! "duration" = None /\ status !! "elapsed" = None /\
     status !! "remaining" = None /\ status !! "progress" = None) /\
    (is_drying (self drying_world) = true ->
     status !! "is_drying" = Some (VBool true) /\
     status !! "target_temp" = Some (VNum (target_temp (self drying_world))) /\
     status !! "duration" = Some (VNum (duration (self drying_world))) /\
     status !! "elapsed" = Some (VNum (401 - start_time (self drying_world))) /\
     status !! "remaining" = Some (VNum (end_time (self drying_world) - 401)) /\
     exists progress,
       status !! "progress" = Some (VNum progress) /\
       (0 < duration (self drying_world) ->
        progress = (401 - start_time (self drying_world))
                   / duration (self drying_world) * 100) /\
       (duration (self drying_world) <= 0 -> progress = 0)).
Proof.
  apply (status_query_is_pure petg_config bench).
  apply reachable_step, reachable_init.
Defined.

Lemma reachable_negative_world : reachable petg_config bench negative_world.
Proof. apply reachable_step, reachable_init. Qed.

(** C6 as stated fails: after [START_FILAMENT_DRYING TEMP=50 DURATION=-1]
    the duration is -3600, not zero, and one second into the cycle the
    progress reported is 0, not 1/(-3600)*100. *)
Lemma progress_with_negative_duration :
  ~ (forall cfg p w now status,
       reachable cfg p w ->
       is_drying (self w) = true ->
       (get_status now w).1 = Ok status ->
       exists progress,
         status !! "progress" = Some (VNum progress) /\
         progress ==
           if Qeq_bool (duration (self w)) 0 then 0
           else (now - start_time (self w)) / duration (self w) * 100).
Proof.
  intros H.
  assert (is_drying (self negative_world) = true) as Hd by reflexivity.
  destruct (H petg_config bench negative_world 102 _
              reachable_negative_world Hd
              (f_equal fst (get_status_active negative_world 102 Hd)))
    as (progress & Hl & Hq).
  rewrite lookup_insert_eq in Hl. injection Hl as <-.
  vm_compute in Hq. discriminate.
Qed.



Lemma load_preset_registered cfg names : forall acc,
  (forall k s, acc !! k = Some s -> registered cfg k s) ->
  forall k s, foldl (load_preset cfg) acc names !! k = Some s ->
              registered cfg k s.
Proof.
  induction names as [|raw names IH]; intros acc Hacc; [exact Hacc|].
  cbn [foldl]. apply IH. intros k s. unfold load_preset.
  destruct (truthy (strip raw)) eqn:Ht; [|apply Hacc].
  destruct (config_getfloat cfg ("preset_" +:+ strip raw +:+ "_temp"))
    as [temp|] eqn:E1; [|apply Hacc].
  destruct (config_getfloat cfg ("preset_" +:+ strip raw +:+ "_duration"))
    as [hours|] eqn:E2; [|apply Hacc].
  destruct (decide (lower (strip raw) = k)) as [<-|Hne].
  - rewrite lookup_insert_eq. intros [= <-]. exists (strip raw), hours. done.
  - rewrite lookup_insert_ne by done. apply Hacc.
Qed.

Lemma presets_registered cfg k s :
  presets (__init__ cfg) !! k = Some s -> registered cfg k s.
Proof. apply load_preset_registered. intros k' s'. by rewrite lookup_empty. Qed.

Lemma start_by_preset w name s t d :
  truthy name = true ->
  presets (self w) !! lower name = Some s ->
  cmd_START_FILAMENT_DRYING {| PRESET := Some name; TEMP := t; DURATION := d |} w
  = _start_drying (preset.temp s) (preset.duration s) w.
Proof.
  intros Ht Hl. rewrite cmd_START_FILAMENT_DRYING_eq.
  unfold start_parameters, preset_parameters. cbn. rewrite Ht. run. by rewrite Hl.
Qed.

Lemma start_by_hand w temp hours :
  cmd_START_FILAMENT_DRYING
    {| PRESET := None; TEMP := Some temp; DURATION := Some hours |} w
  = _start_drying temp (hours * 3600) w.
Proof. by rewrite cmd_START_FILAMENT_DRYING_eq. Qed.

(** C7.  A preset that was registered from the configuration carries the
    configured temperature and the configured hours times 3600, and a start
    by its name (whatever else the command line carries) ends exactly as
    the start with [TEMP] and [DURATION] set to those numbers: the same
    outcome and the same world, hence the same attributes. *)
Theorem preset_start_is_manual_start (cfg : config) (p : host) (w : world)
    (name : string) (s : preset.t) (t d : option Q) :
  reachable cfg p w ->
  truthy name = true ->
  presets (__init__ cfg) !! lower name = Some s ->
  registered cfg (lower name) s /\
  forall hours, preset.duration s = hours * 3600 ->
    cmd_START_FILAMENT_DRYING
      {| PRESET := Some name; TEMP := t; DURATION := d |} w
    = cmd_START_FILAMENT_DRYING
        {| PRESET := None; TEMP := Some (preset.temp s);
           DURATION := Some hours |} w.
Proof.
  intros Hr Ht Hl. split; [by apply presets_registered|].
  intros hours Hh. destruct (reachable_static cfg p w Hr) as [Hp _].
  rewrite (start_by_preset w name s) by (by rewrite ?Hp).
  by rewrite start_by_hand, Hh.
Qed.

Lemma preset_start_is_manual_start_witness :
  registered petg_config (lower "petg")
    {| preset.temp := 70; preset.duration := 4 * 3600 |} /\
  forall hours, 4 * 3600 = hours * 3600 ->
    cmd_START_FILAMENT_DRYING
      {| PRESET := Some "petg"; TEMP := None; DURATION := None |} idle_world
    = cmd_START_FILAMENT_DRYING
        {| PRESET := None; TEMP := Some 70; DURATION := Some hours |} idle_world.
Proof.
  apply (preset_start_is_manual_start petg_config bench idle_world "petg"
           {| preset.temp := 70; preset.duration := 4 * 3600 |} None None).
  - apply reachable_init.
  - reflexivity.
  - vm_compute. reflexivity.
Defined.

Example petg_start_fields :
  let by_name :=
    (cmd_START_FILAMENT_DRYING
       {| PRESET := Some "petg"; TEMP := None; DURATION := None |} idle_world) in
  let by_hand :=
    (cmd_START_FILAMENT_DRYING
       {| PRESET := None; TEMP := Some 70; DURATION := Some 4 |} idle_world) in
  by_name = by_hand /\
  by_name.1 = Ok tt /\
  is_drying (self by_name.2) = true /\
  target_temp (self by_name.2) = 70 /\
  duration (self by_name.2) = 4 * 3600 /\
  start_time (self by_name.2) = 101 /\
  end_time (self by_name.2) = 101 + 4 * 3600 /\
  original_target (self by_name.2) = 5.
Proof. vm_compute. repeat split. Qed.


Lemma leb_compare s1 s2 :
  String.leb s1 s2 = true <-> String_as_OT.compare s1 s2 <> Gt.
Proof.
  unfold String.leb. change (String.compare s1 s2) with (String_as_OT.compare s1 s2).
  destruct (String_as_OT.compare s1 s2); split; congruence.
Qed.

Lemma leb_lt_or_eq s1 s2 :
  String.leb s1 s2 = true <-> String_as_OT.lt s1 s2 \/ s1 = s2.
Proof.
  rewrite leb_compare. unfold String_as_OT.lt.
  destruct (String_as_OT.compare_spec s1 s2) as [E|L|G]; split; try tauto; try congruence.
  - intros [H|H]; [congruence|]. subst s2.
    apply (StrictOrder_Irreflexive (R := String_as_OT.lt)) in G. done.
Qed.

#[global] Instance item_le_transitive : Transitive item_le.
Proof.
  intros a b c. unfold item_le. rewrite !leb_lt_or_eq.
  intros [H1| ->] [H2| <-]; auto.
  left. by etransitivity.
Qed.

#[global] Instance item_le_total : Total item_le.
Proof. intros a b. unfold item_le. apply String.leb_total. Qed.

Lemma foldl_preset_line items : forall response,
  foldl preset_line response items =
  (response ++
     map (fun item : string * preset.t =>
            Fmt ("  %s: %.1f°C for %.1f hours" +:+ nl)
                [Str (upper item.1); Num (preset.temp item.2);
                 Num (preset.duration item.2 / 3600)]) items)%list.
Proof.
  induction items as [|[name settings] items IH]; intros response; cbn.
  - by rewrite app_nil_r.
  - rewrite IH. by rewrite <- app_assoc.
Qed.

Lemma listed_entries_preset_listing (m : gmap string preset.t) :
  listed_entries (preset_listing m) = preset_entry <$> sorted_items m.
Proof.
  unfold preset_listing. destruct (decide (m = ∅)) as [->|_]; [done|].
  rewrite foldl_preset_line. unfold listed_entries. cbn.
  induction (sorted_items m) as [|[name settings] items IH]; [done|].
  cbn. by rewrite IH.
Qed.

Lemma sorted_items_spec (m : gmap string preset.t) :
  sorted_items m ≡ₚ map_to_list m /\
  StronglySorted item_le (sorted_items m) /\
  NoDup (sorted_items m).*1 /\
  (forall name s, (name, s) ∈ sorted_items m <-> m !! name = Some s) /\
  length (sorted_items m) = size m.
Proof.
  assert (sorted_items m ≡ₚ map_to_list m) as Hp by apply merge_sort_Permutation.
  split; [done|]. split; [apply StronglySorted_merge_sort; apply _|].
  split; [rewrite Hp; apply NoDup_fst_map_to_list|].
  split; [intros name s; rewrite Hp; apply elem_of_map_to_list|].
  by rewrite Hp, length_map_to_list.
Qed.

(** C8, amended.  [LIST_DRYER_PRESETS] responds once and changes nothing
    else.  With no preset the response is the single line "No presets
    configured", without entries.  Otherwise there is one line per
    registered preset, in the order of the registered (lower-case) names,
    and each line carries the name in upper case, the temperature and the
    duration in hours; the preset [petg] of the bench is listed as
    ("PETG", 70, 4). *)
Theorem preset_listing_shows_upper_case (w : world) :
  let m := presets (self w) in
  cmd_LIST_DRYER_PRESETS w =
    (Ok tt, responded (respond_info (preset_listing m)) w) /\
  listed_entries (preset_listing m) = preset_entry <$> sorted_items m /\
  sorted_items m ≡ₚ map_to_list m /\
  StronglySorted item_le (sorted_items m) /\
  NoDup (sorted_items m).*1 /\
  (forall name s, (name, s) ∈ sorted_items m <-> m !! name = Some s) /\
  length (listed_entries (preset_listing m)) = size m /\
  (m = ∅ -> preset_listing m = [Lit "No presets configured"]) /\
  listed_entries (preset_listing (presets (__init__ petg_config))) =
    [("PETG", 70, 4 * 3600 / 3600)] /\
  4 * 3600 / 3600 == 4.
Proof.
  intros m. split; [apply cmd_LIST_DRYER_PRESETS_eq|].
  split; [apply listed_entries_preset_listing|].
  destruct (sorted_items_spec m) as (H1 & H2 & H3 & H4 & H5).
  repeat (split; [done|]).
  split; [by rewrite listed_entries_preset_listing, length_fmap|].
  split; [intros ->; reflexivity|]. split; [vm_compute; reflexivity|reflexivity].
Qed.

Lemma preset_listing_shows_upper_case_witness :
  let m := presets (self idle_world) in
  cmd_LIST_DRYER_PRESETS idle_world =
    (Ok tt, responded (respond_info (preset_listing m)) idle_world) /\
  listed_entries (preset_listing m) = preset_entry <$> sorted_items m /\
  sorted_items m ≡ₚ map_to_list m /\
  StronglySorted item_le (sorted_items m) /\
  NoDup (sorted_items m).*1 /\
  (forall name s, (name, s) ∈ sorted_items m <-> m !! name = Some s) /\
  length (listed_entries (preset_listing m)) = size m /\
  (m = ∅ -> preset_listing m = [Lit "No presets configured"]) /\
  listed_entries (preset_listing (presets (__init__ petg_config))) =
    [("PETG", 70, 4 * 3600 / 3600)] /\
  4 * 3600 / 3600 == 4.
Proof. apply (preset_listing_shows_upper_case idle_world). Defined.

(** C8 as stated fails: the entry of the preset registered as [petg] is
    not ("petg", 70, 4); the name shown is "PETG". *)
Lemma listing_does_not_show_registered_name :
  ~ (forall cfg p w name s response,
       reachable cfg p w ->
       presets (self w) !! name = Some s ->
       last (responses (printer (cmd_LIST_DRYER_PRESETS w).2))
         = Some (respond_info response) ->
       (name, preset.temp s, preset.duration s / 3600)
         ∈ listed_entries response).
Proof.
  intros H.
  specialize (H petg_config bench idle_world "petg"
                {| preset.temp := 70; preset.duration := 4 * 3600 |}
                (preset_listing (presets (self idle_world)))
                reachable_idle_world).
  assert (listed_entries (preset_listing (presets (self idle_world)))
          = [("PETG", 70, 4 * 3600 / 3600)]) as E by (vm_compute; reflexivity).
  rewrite E in H.
  assert (("petg", 70, 4 * 3600 / 3600) ∈ [("PETG", 70, 4 * 3600 / 3600)]) as Hin.
  { apply H; [vm_compute; reflexivity|].
    rewrite cmd_LIST_DRYER_PRESETS_eq. reflexivity. }
  apply list_elem_of_singleton in Hin. discriminate.
Qed.


(** The order is that of the registered names, not of the names shown:
    ["a_" < "aa"], but ["AA" < "A_"]. *)
Example listing_order_is_by_registered_name :
  (sorted_items (presets (__init__ underscore_config))).*1 = ["a_"; "aa"] /\
  (listed_entries (preset_listing (presets (__init__ underscore_config)))).*1.*1
    = ["A_"; "AA"] /\
  String.leb "A_" "AA" = false.
Proof. vm_compute. repeat split. Qed.



Lemma py_le_not_due (deadline now : Q) :
  now < deadline -> py_le (deadline - now) 0 = false.
Proof.
  intros H. unfold py_le. destruct (Qle_bool (deadline - now) 0) eqn:E; [|done].
  apply Qle_bool_iff in E. lra.
Qed.

Lemma Qeq_bool_nonzero (x : Q) : ~ x == 0 -> Qeq_bool x 0 = false.
Proof.
  intros H. destruct (Qeq_bool x 0) eqn:E; [|done]. by apply Qeq_bool_eq in E.
Qed.




Example late_world_run :
  binary64.to_Q binary64.late_start = Some (9007198395747533 # 8589934592) /\
  binary64.to_Q (binary64.plus_300 binary64.late_start)
    = Some (2252443844031283 # 2147483648) /\
  start_time (self late_world) = 9007198395747533 # 8589934592 /\
  Qred ((2252443844031283 # 2147483648) - (9007198395747533 # 8589934592))
    = 2576980377599 # 8589934592 /\
  py_int ((2252443844031283 # 2147483648) - (9007198395747533 # 8589934592))
    = 299%Z.
Proof. vm_compute. repeat split. Qed.


(** Why the amended statement gives the two hour values and not their
    sum: with floats the sum need not be the duration in hours, even when
    the elapsed time is 300 on the dot. *)
Example hours_need_not_add_up :
  binary64.on_the_dot = true /\ binary64.on_the_dot_hours_add_up = false.
Proof. vm_compute. split; reflexivity. Qed.

(** The message of the witness, worked out: 21 degrees, and 300 of 14400
    seconds done. *)
Example progress_at_five_minutes_run :
  _timer_callback 401 drying_world =
    (Ok (At (401 + 1)),
     responded
       (run_script_from_command
          [Lit "M118 ";
           Fmt progress_template
               [Num 21; Num ((401 - 101) / (4 * 3600) * 100);
                Num ((401 - 101) / 3600);
                Num ((101 + 4 * 3600 - 401) / 3600)]]) drying_world).
Proof. vm_compute. reflexivity. Qed.

(** C10.  During a cycle [DRYER_STATUS] divides the elapsed time by the
    duration without a test.  With a positive duration (any duration other
    than zero, in fact) it reports elapsed/duration*100; with a zero
    duration it raises [ZeroDivisionError], where [get_status] answers with
    progress 0.  Nothing at the start rules the zero out: from an idle
    world with a heater, [_start_drying] accepts every temperature and
    every duration, and after a start with duration zero the command
    raises. *)
Theorem status_command_divides_unguarded (cfg : config) (p : host) (w : world)
    (now : Q) :
  reachable cfg p w ->
  (is_drying (self w) = true -> ~ duration (self w) == 0 ->
   exists o,
     pheaters (printer w) !! heater_name (self w) = Some o /\
     let current_time := clock (printer w) (clock_reads (printer w)) in
     let elapsed := current_time - start_time (self w) in
     let remaining := end_time (self w) - current_time in
     cmd_DRYER_STATUS w =
       (Ok tt,
        responded
          (respond_info
             [Fmt status_template
                  [Num (target_temp (self w)); Num (default 0 (temperature o));
                   Num (duration (self w) / 3600); Num (elapsed / 3600);
                   Num (remaining / 3600);
                   Num (elapsed / duration (self w) * 100)]])
          (clock_read w))) /\
  (is_drying (self w) = true -> duration (self w) == 0 ->
   cmd_DRYER_STATUS w = (Raised ZeroDivisionError, clock_read w) /\
   exists status,
     get_status now w = (Ok status, w) /\
     status !! "progress" = Some (VNum 0)) /\
  (is_drying (self w) = false ->
   is_Some (pheaters (printer w) !! heater_name (self w)) ->
   forall temp seconds,
     let w1 := (_start_drying temp seconds w).2 in
     (_start_drying temp seconds w).1 = Ok tt /\
     is_drying (self w1) = true /\
     duration (self w1) = seconds /\
     (seconds == 0 -> (cmd_DRYER_STATUS w1).1 = Raised ZeroDivisionError)).
Proof.
  intros Hr. pose proof (reachable_consistent cfg p w Hr) as Hc.
  split; [|split].
  - intros Hd Hnz.
    destruct (consistent_resolve w Hc Hd) as (h & o & Hh & -> & Ho).
    exists o. split; [done|]. cbn zeta.
    rewrite (cmd_DRYER_STATUS_active w _ o Hd Hh Ho).
    by rewrite Qeq_bool_nonzero.
  - intros Hd Hz.
    destruct (consistent_resolve w Hc Hd) as (h & o & Hh & -> & Ho).
    split.
    + rewrite (cmd_DRYER_STATUS_active w _ o Hd Hh Ho).
      by rewrite (proj2 (Qeq_bool_iff _ _) Hz).
    + eexists. split; [by apply get_status_active|].
      rewrite lookup_insert_eq, py_gt_false; [done|]. rewrite Hz. lra.
  - intros Hd [o Ho] temp seconds.
    destruct (_start_drying_cases w temp seconds Hc)
      as [[Hd' _]|[(_ & Ho' & _)|(o' & _ & Ho' & Hs)]]; [congruence..|].
    rewrite Hs. cbn. repeat split; try done.
    intros Hz.
    rewrite (cmd_DRYER_STATUS_active _ (heater_name (self w))
               {| temperature := temperature o'; target := temp |});
      [|done..|cbn; apply lookup_insert_eq].
    cbn. by rewrite (proj2 (Qeq_bool_iff _ _) Hz).
Qed.

Lemma status_command_divides_unguarded_witness :
  let w := zero_world in
  (is_drying (self w) = true -> ~ duration (self w) == 0 ->
   exists o,
     pheaters (printer w) !! heater_name (self w) = Some o /\
     let current_time := clock (printer w) (clock_reads (printer w)) in
     let elapsed := current_time - start_time (self w) in
     let remaining := end_time (self w) - current_time in
     cmd_DRYER_STATUS w =
       (Ok tt,
        responded
          (respond_info
             [Fmt status_template
                  [Num (target_temp (self w)); Num (default 0 (temperature o));
                   Num (duration (self w) / 3600); Num (elapsed / 3600);
                   Num (remaining / 3600);
                   Num (elapsed / duration (self w) * 100)]])
          (clock_read w))) /\
  (is_drying (self w) = true -> duration (self w) == 0 ->
   cmd_DRYER_STATUS w = (Raised ZeroDivisionError, clock_read w) /\
   exists status,
     get_status 102 w = (Ok status, w) /\
     status !! "progress" = Some (VNum 0)) /\
  (is_drying (self w) = false ->
   is_Some (pheaters (printer w) !! heater_name (self w)) ->
   forall temp seconds,
     let w1 := (_start_drying temp seconds w).2 in
     (_start_drying temp seconds w).1 = Ok tt /\
     is_drying (self w1) = true /\
     duration (self w1) = seconds /\
     (seconds == 0 -> (cmd_DRYER_STATUS w1).1 = Raised ZeroDivisionError)).
Proof.
  apply (status_command_divides_unguarded petg_config bench zero_world 102).
  apply reachable_step, reachable_init.
Defined.

(** The zero duration reaches the instance through the command itself,
    and the status command then raises while the status query answers. *)
Example zero_duration_run :
  (cmd_START_FILAMENT_DRYING
     {| PRESET := None; TEMP := Some 50; DURATION := Some 0 |} idle_world).1
    = Ok tt /\
  is_drying (self zero_world) = true /\
  duration (self zero_world) = 0 * 3600 /\
  (cmd_DRYER_STATUS zero_world).1 = Raised ZeroDivisionError /\
  match (get_status 102 zero_world).1 with
  | Ok status => status !! "progress" = Some (VNum 0)
  | Raised _ => False
  end.
Proof. vm_compute. repeat split. Qed.

(** ** Further properties *)

(** X1.  The first [_get_heater] on an instance without a handle, when
    the configured heater exists, returns its name and stores the handle,
    touching nothing else; from then on [_get_heater] answers from the
    stored handle whatever the host looks like. *)
Theorem get_heater_caches (w : world) (o : heater_obj) :
  heater (self w) = None ->
  pheaters (printer w) !! heater_name (self w) = Some o ->
  _get_heater w = (Ok (heater_name (self w)), resolved w) /\
  printer (resolved w) = printer w /\
  heater (self (resolved w)) = Some (heater_name (self w)) /\
  forall p' : host,
    _get_heater {| self := self (resolved w); printer := p' |} =
      (Ok (heater_name (self w)),
       {| self := self (resolved w); printer := p' |}).
Proof.
  open_world w. intros -> Ho. unfold resolved. run. rewrite Ho. done.
Qed.

Lemma get_heater_caches_witness :
  _get_heater idle_world =
    (Ok (heater_name (self idle_world)), resolved idle_world) /\
  printer (resolved idle_world) = printer idle_world /\
  heater (self (resolved idle_world)) = Some (heater_name (self idle_world)) /\
  forall p' : host,
    _get_heater {| self := self (resolved idle_world); printer := p' |} =
      (Ok (heater_name (self idle_world)),
       {| self := self (resolved idle_world); printer := p' |}).
Proof.
  apply (get_heater_caches idle_world {| temperature := Some 21; target := 5 |}).
  - reflexivity.
  - vm_compute. reflexivity.
Defined.

(** X2.  When the configured heater does not exist, [_get_heater] and a
    start on an idle instance raise the "Unable to find heater" error with
    the heater name and the host's reason, and change nothing; the failure
    is not remembered: once the heater is registered both succeed. *)
Theorem missing_heater_fails_cleanly (w : world) (temp seconds : Q)
    (o : heater_obj) :
  is_drying (self w) = false ->
  heater (self w) = None ->
  pheaters (printer w) !! heater_name (self w) = None ->
  let error :=
    command_error
      [Fmt "Filament dryer: Unable to find heater '%s': %s"
           [Str (heater_name (self w)); Str (lookup_reason (printer w))]] in
  let w' := with_heater_object o w in
  _get_heater w = (Raised error, w) /\
  _start_drying temp seconds w = (Raised error, w) /\
  _get_heater w' = (Ok (heater_name (self w)), resolved w') /\
  _start_drying temp seconds w' =
    (Ok tt, started temp seconds (heater_name (self w)) o w').
Proof.
  intros Hd Hh Ho error w'. split; [|split; [|split]].
  - subst error. revert Hd Hh Ho. open_world w. intros -> -> Ho. run.
    by rewrite Ho.
  - by apply _start_drying_no_heater.
  - subst w'. revert Hd Hh Ho. open_world w. intros -> -> Ho.
    unfold resolved, with_heater_object. run. by rewrite lookup_insert_eq.
  - apply _start_drying_ok; [done|]. subst w'. revert Hd Hh Ho. open_world w.
    intros -> -> Ho. unfold resolve, with_heater_object. cbn.
    by rewrite lookup_insert_eq.
Qed.

Lemma missing_heater_fails_cleanly_witness :
  let w := bare_world in
  let o := {| temperature := Some 21; target := 5 |} in
  let error :=
    command_error
      [Fmt "Filament dryer: Unable to find heater '%s': %s"
           [Str (heater_name (self w)); Str (lookup_reason (printer w))]] in
  let w' := with_heater_object o w in
  _get_heater w = (Raised error, w) /\
  _start_drying 50 3600 w = (Raised error, w) /\
  _get_heater w' = (Ok (heater_name (self w)), resolved w') /\
  _start_drying 50 3600 w' =
    (Ok tt, started 50 3600 (heater_name (self w)) o w').
Proof.
  apply (missing_heater_fails_cleanly bare_world 50 3600
           {| temperature := Some 21; target := 5 |}); reflexivity.
Defined.

(** X3.  [_stop_timer] always returns; it removes from the reactor the
    timer whose handle the instance holds (and no other), drops the handle,
    leaves heaters, responses and [is_drying] alone, does nothing at all
    without a handle, and a second call changes nothing. *)
Theorem stop_timer_is_idempotent (w : world) :
  exists w1,
    _stop_timer w = (Ok tt, w1) /\
    timer_handler (self w1) = None /\
    timers (printer w1) =
      match timer_handler (self w) with
      | Some handle => delete handle (timers (printer w))
      | None => timers (printer w)
      end /\
    (timer_handler (self w) = None -> w1 = w) /\
    pheaters (printer w1) = pheaters (printer w) /\
    responses (printer w1) = responses (printer w) /\
    is_drying (self w1) = is_drying (self w) /\
    _stop_timer w1 = (Ok tt, w1).
Proof.
  open_world w. run. destruct th as [handle|]; cbn; eexists; repeat split; done.
Qed.

(** X4.  In a reachable world [_stop_drying] always returns.  When idle
    it changes nothing; during a cycle it responds "Filament drying
    stopped" once.  A second stop changes nothing, and the stop command
    then only answers "No drying cycle in progress". *)
Theorem stop_is_idempotent (cfg : config) (p : host) (w : world) :
  reachable cfg p w ->
  exists w1,
    _stop_drying w = (Ok tt, w1) /\
    _stop_drying w1 = (Ok tt, w1) /\
    cmd_STOP_FILAMENT_DRYING w1 =
      (Ok tt, responded (respond_info [Lit "No drying cycle in progress"]) w1) /\
    (is_drying (self w) = false -> w1 = w) /\
    (is_drying (self w) = true ->
     responses (printer w1) =
       (responses (printer w) ++ [respond_info [Lit "Filament drying stopped"]])%list).
Proof.
  intros Hr. pose proof (reachable_consistent cfg p w Hr) as Hc.
  destruct (_stop_drying_cases w Hc) as [[Hd Hs]|(o & Hd & Ho & Hs)].
  - exists w. rewrite Hs. repeat split; try done.
    + by apply cmd_STOP_FILAMENT_DRYING_idle.
    + congruence.
  - eexists. split; [exact Hs|]. split; [by apply _stop_drying_idle|].
    split; [by apply cmd_STOP_FILAMENT_DRYING_idle|]. split; [congruence|done].
Qed.

Lemma stop_is_idempotent_witness :
  exists w1,
    _stop_drying drying_world = (Ok tt, w1) /\
    _stop_drying w1 = (Ok tt, w1) /\
    cmd_STOP_FILAMENT_DRYING w1 =
      (Ok tt, responded (respond_info [Lit "No drying cycle in progress"]) w1) /\
    (is_drying (self drying_world) = false -> w1 = drying_world) /\
    (is_drying (self drying_world) = true ->
     responses (printer w1) =
       (responses (printer drying_world) ++
          [respond_info [Lit "Filament drying stopped"]])%list).
Proof.
  apply (stop_is_idempotent petg_config bench).
  apply reachable_step, reachable_init.
Defined.

Lemma lower_char_idempotent c : lower_char (lower_char c) = lower_char c.
Proof. destruct c as [[] [] [] [] [] [] [] []]; reflexivity. Qed.

Lemma lower_upper_char c : lower_char (upper_char c) = lower_char c.
Proof. destruct c as [[] [] [] [] [] [] [] []]; reflexivity. Qed.

Lemma lower_idempotent s : lower (lower s) = lower s.
Proof.
  unfold lower. induction s as [|c s IH]; cbn; [done|].
  by rewrite lower_char_idempotent, IH.
Qed.

Lemma lower_upper s : lower (upper s) = lower s.
Proof.
  unfold lower, upper. induction s as [|c s IH]; cbn; [done|].
  by rewrite lower_upper_char, IH.
Qed.

Lemma truthy_map_string f s : truthy (map_string f s) = truthy s.
Proof. by destruct s. Qed.

Lemma registered_key_is_lower cfg k s :
  registered cfg k s -> lower k = k /\ truthy k = true.
Proof.
  intros (name & hours & -> & Ht & _). split; [apply lower_idempotent|].
  unfold lower. by rewrite truthy_map_string.
Qed.

(** X5.  A start naming a preset that is not registered is refused with
    the "Unknown preset" error carrying the lower-cased name, whatever
    [TEMP] and [DURATION] say and whether or not a cycle is running, and
    changes nothing. *)
Theorem unknown_preset_is_rejected (w : world) (name : string) (t d : option Q) :
  truthy name = true ->
  presets (self w) !! lower name = None ->
  cmd_START_FILAMENT_DRYING {| PRESET := Some name; TEMP := t; DURATION := d |} w
  = (Raised (command_error
       [Fmt "Unknown preset '%s'. Use LIST_DRYER_PRESETS to see available presets."
            [Str (lower name)]]), w).
Proof.
  intros Ht Hl. rewrite cmd_START_FILAMENT_DRYING_eq.
  unfold start_parameters, preset_parameters. cbn. rewrite Ht. run. by rewrite Hl.
Qed.

Lemma unknown_preset_is_rejected_witness :
  cmd_START_FILAMENT_DRYING
    {| PRESET := Some "ABS"; TEMP := Some 80; DURATION := Some 2 |} drying_world
  = (Raised (command_error
       [Fmt "Unknown preset '%s'. Use LIST_DRYER_PRESETS to see available presets."
            [Str (lower "ABS")]]), drying_world).
Proof.
  apply (unknown_preset_is_rejected drying_world "ABS"); vm_compute; reflexivity.
Defined.

(** X6.  Without a preset (absent or empty) a start lacking [TEMP] or
    [DURATION] is refused with the "Must specify" error and changes
    nothing, also during a cycle. *)
Theorem missing_parameters_are_rejected (w : world) (g : gcmd) :
  (PRESET g = None \/ PRESET g = Some "") ->
  (TEMP g = None \/ DURATION g = None) ->
  cmd_START_FILAMENT_DRYING g w
  = (Raised (command_error
       [Lit "Must specify either PRESET or both TEMP and DURATION parameters"]), w).
Proof.
  intros Hp Hm. rewrite cmd_START_FILAMENT_DRYING_eq.
  unfold start_parameters, manual_parameters.
  destruct g as [pr t d]; cbn in *.
  destruct t, d, Hp as [-> | ->], Hm as [? | ?]; try discriminate; reflexivity.
Qed.

Lemma missing_parameters_are_rejected_witness :
  cmd_START_FILAMENT_DRYING
    {| PRESET := Some ""; TEMP := Some 50; DURATION := None |} drying_world
  = (Raised (command_error
       [Lit "Must specify either PRESET or both TEMP and DURATION parameters"]),
     drying_world).
Proof.
  apply (missing_parameters_are_rejected drying_world); [by right|by right].
Defined.

(** X7.  Two spellings of a preset name that differ only in the case of
    their letters give the same start: same outcome, same world. *)
Theorem preset_names_ignore_case (w : world) (n1 n2 : string) (t d : option Q) :
  lower n1 = lower n2 ->
  cmd_START_FILAMENT_DRYING {| PRESET := Some n1; TEMP := t; DURATION := d |} w
  = cmd_START_FILAMENT_DRYING {| PRESET := Some n2; TEMP := t; DURATION := d |} w.
Proof.
  intros Hl. rewrite !cmd_START_FILAMENT_DRYING_eq.
  unfold start_parameters, preset_parameters. cbn.
  assert (truthy n1 = truthy n2) as ->.
  { rewrite <- (truthy_map_string lower_char n1), <- (truthy_map_string lower_char n2).
    by fold (lower n1); fold (lower n2); rewrite Hl. }
  by rewrite Hl.
Qed.

Lemma preset_names_ignore_case_witness :
  cmd_START_FILAMENT_DRYING
    {| PRESET := Some "PeTg"; TEMP := None; DURATION := None |} idle_world
  = cmd_START_FILAMENT_DRYING
      {| PRESET := Some "petg"; TEMP := None; DURATION := None |} idle_world.
Proof. apply (preset_names_ignore_case idle_world). reflexivity. Defined.

(** X8.  When the registered preset names are ASCII, every name that
    [LIST_DRYER_PRESETS] shows is ASCII and is accepted by
    [START_FILAMENT_DRYING PRESET=]: it resolves to a registered preset,
    with the temperature shown and the hours shown times 3600 (the
    duration divided by 3600 is what is shown). *)
Theorem listed_ascii_name_starts_its_preset (cfg : config) (p : host)
    (w : world) (name : string) (temp hours : Q) :
  reachable cfg p w ->
  (forall k s, presets (self w) !! k = Some s -> ascii_only k = true) ->
  (name, temp, hours) ∈ listed_entries (preset_listing (presets (self w))) ->
  exists s,
    presets (self w) !! lower name = Some s /\
    ascii_only name = true /\
    preset.temp s = temp /\ hours = preset.duration s / 3600 /\
    forall t d,
      cmd_START_FILAMENT_DRYING
        {| PRESET := Some name; TEMP := t; DURATION := d |} w
      = _start_drying temp (preset.duration s) w.
Proof.
  intros Hr Hascii. rewrite listed_entries_preset_listing.
  intros ((k & s) & [= -> -> ->] & Hin)%list_elem_of_fmap. cbn in *.
  apply (proj1 (proj2 (proj2 (proj2 (sorted_items_spec _))))) in Hin.
  destruct (reachable_static cfg p w Hr) as [Hp _].
  assert (registered cfg k s) as Hk by (apply presets_registered; by rewrite <- Hp).
  destruct (registered_key_is_lower cfg k s Hk) as [Hlow Ht].
  assert (lower (upper k) = k) as Hlu by (by rewrite lower_upper).
  exists s. rewrite Hlu. split; [done|]. split.
  { pose proof (Hascii k s Hin) as Hk'. unfold ascii_only, chars, upper in *.
    clear -Hk'. induction k as [|c k IH]; [done|]. cbn in *.
    apply andb_prop in Hk' as [Hc Hk']. rewrite IH by done.
    rewrite andb_true_r. clear -Hc.
    destruct c as [[] [] [] [] [] [] [] []]; done. }
  repeat split; try done.
  intros t d. apply start_by_preset; [|by rewrite Hlu].
  unfold upper. by rewrite truthy_map_string.
Qed.

Lemma petg_keys_are_ascii k s :
  presets (self idle_world) !! k = Some s -> ascii_only k = true.
Proof.
  intros Hk. apply elem_of_map_to_list in Hk.
  assert (map_to_list (presets (self idle_world)) =
          [("petg", {| preset.temp := 70; preset.duration := 4 * 3600 |})]) as E
    by (vm_compute; reflexivity).
  rewrite E in Hk. apply list_elem_of_singleton in Hk. by injection Hk as -> _.
Qed.

Lemma listed_ascii_name_starts_its_preset_witness :
  exists s,
    presets (self idle_world) !! lower "PETG" = Some s /\
    ascii_only "PETG" = true /\
    preset.temp s = 70 /\ 4 * 3600 / 3600 = preset.duration s / 3600 /\
    forall t d,
      cmd_START_FILAMENT_DRYING
        {| PRESET := Some "PETG"; TEMP := t; DURATION := d |} idle_world
      = _start_drying 70 (preset.duration s) idle_world.
Proof.
  apply (listed_ascii_name_starts_its_preset petg_config bench idle_world
           "PETG" 70 (4 * 3600 / 3600)).
  - apply reachable_init.
  - apply petg_keys_are_ascii.
  - vm_compute. apply list_elem_of_here.
Defined.

Lemma load_preset_last cfg names : forall acc name temp hours,
  name ∈ strip <$> names ->
  truthy name = true ->
  config_getfloat cfg ("preset_" +:+ name +:+ "_temp") = Some temp ->
  config_getfloat cfg ("preset_" +:+ name +:+ "_duration") = Some hours ->
  (forall other, other ∈ strip <$> names -> lower other = lower name ->
                 other = name) ->
  foldl (load_preset cfg) acc names !! lower name =
    Some {| preset.temp := temp; preset.duration := hours * 3600 |}.
Proof.
  induction names as [|raw names IH] using rev_ind;
    intros acc name temp hours Hin Ht E1 E2 Huniq.
  { by apply elem_of_nil in Hin. }
  rewrite foldl_app. cbn [foldl]. unfold load_preset at 1.
  rewrite fmap_app in Hin, Huniq. cbn in Hin, Huniq.
  destruct (decide (strip raw = name)) as [->|Hne].
  - rewrite Ht, E1, E2. apply lookup_insert_eq.
  - assert (name ∈ strip <$> names) as Hin'.
    { apply elem_of_app in Hin as [?|Hin]; [done|].
      apply list_elem_of_singleton in Hin. congruence. }
    assert (lower (strip raw) <> lower name) as Hl.
    { intros E. apply Hne, Huniq; [|done]. apply elem_of_app. right.
      apply list_elem_of_here. }
    assert (foldl (load_preset cfg) acc names !! lower name =
            Some {| preset.temp := temp; preset.duration := hours * 3600 |}) as Hprev.
    { apply IH; try done. intros other Ho. apply Huniq, elem_of_app. by left. }
    repeat case_match; try done. by rewrite lookup_insert_ne.
Qed.

(** X9.  A name of the [presets] option (white space around it ignored,
    not empty) with both its options set is registered under its
    lower-case form with the configured temperature and the configured
    hours times 3600, provided no other listed name has the same
    lower-case form. *)
Theorem configured_preset_is_registered (cfg : config) (name : string)
    (temp hours : Q) :
  name ∈ strip <$> preset_names cfg ->
  truthy name = true ->
  config_getfloat cfg ("preset_" +:+ name +:+ "_temp") = Some temp ->
  config_getfloat cfg ("preset_" +:+ name +:+ "_duration") = Some hours ->
  (forall other, other ∈ strip <$> preset_names cfg ->
                 lower other = lower name -> other = name) ->
  presets (__init__ cfg) !! lower name =
    Some {| preset.temp := temp; preset.duration := hours * 3600 |}.
Proof. intros. by apply load_preset_last. Qed.

Lemma configured_preset_is_registered_witness :
  presets (__init__ petg_config) !! lower "petg" =
    Some {| preset.temp := 70; preset.duration := 4 * 3600 |}.
Proof.
  apply (configured_preset_is_registered petg_config "petg" 70 4).
  - vm_compute. apply list_elem_of_here.
  - reflexivity.
  - reflexivity.
  - reflexivity.
  - intros other Hin _. vm_compute in Hin. by apply list_elem_of_singleton in Hin.
Defined.

(** Keys are lower-case, never empty, and each comes from a listed name
    with both options set. *)
(** X10.  Every registered preset has a lower-case, non-empty key and
    comes from a listed name with both options set: its temperature is
    the configured one and its duration the configured hours times
    3600. *)
Theorem registered_presets_come_from_config (cfg : config) (k : string)
    (s : preset.t) :
  presets (__init__ cfg) !! k = Some s ->
  lower k = k /\ truthy k = true /\
  exists name hours,
    name ∈ strip <$> preset_names cfg /\ k = lower name /\
    config_getfloat cfg ("preset_" +:+ name +:+ "_temp") = Some (preset.temp s) /\
    config_getfloat cfg ("preset_" +:+ name +:+ "_duration") = Some hours /\
    preset.duration s = hours * 3600.
Proof.
  intros Hl.
  destruct (registered_key_is_lower cfg k s (presets_registered cfg k s Hl)) as [H1 H2].
  split; [done|]. split; [done|].
  revert Hl. unfold __init__, preset_names. cbn [presets].
  generalize (split_comma (default "" (config_get cfg "presets"))). intros names.
  assert (forall acc,
    (forall k s, acc !! k = Some s ->
       exists name hours,
         name ∈ strip <$> names /\ k = lower name /\
         config_getfloat cfg ("preset_" +:+ name +:+ "_temp") = Some (preset.temp s) /\
         config_getfloat cfg ("preset_" +:+ name +:+ "_duration") = Some hours /\
         preset.duration s = hours * 3600) ->
    forall names', names' `suffix_of` names ->
    foldl (load_preset cfg) acc names' !! k = Some s ->
    exists name hours,
      name ∈ strip <$> names /\ k = lower name /\
      config_getfloat cfg ("preset_" +:+ name +:+ "_temp") = Some (preset.temp s) /\
      config_getfloat cfg ("preset_" +:+ name +:+ "_duration") = Some hours /\
      preset.duration s = hours * 3600) as Hgen.
  { intros acc Hacc names'. revert acc Hacc.
    induction names' as [|raw names' IH]; intros acc Hacc Hsuf; [by apply Hacc|].
    cbn [foldl]. apply IH; [|by eapply suffix_cons_l].
    intros k' s'. unfold load_preset.
    destruct (truthy (strip raw)) eqn:Ht; [|apply Hacc].
    destruct (config_getfloat cfg ("preset_" +:+ strip raw +:+ "_temp"))
      as [temp|] eqn:E1; [|apply Hacc].
    destruct (config_getfloat cfg ("preset_" +:+ strip raw +:+ "_duration"))
      as [hours|] eqn:E2; [|apply Hacc].
    destruct (decide (lower (strip raw) = k')) as [<-|Hne].
    - rewrite lookup_insert_eq. intros [= <-]. exists (strip raw), hours.
      split; [|done]. apply list_elem_of_fmap. exists raw. split; [done|].
      destruct Hsuf as [pre ->]. apply elem_of_app. right. apply list_elem_of_here.
    - rewrite lookup_insert_ne by done. apply Hacc. }
  apply (Hgen ∅); [|done]. intros k' s'. by rewrite lookup_empty.
Qed.

Lemma registered_presets_come_from_config_witness :
  lower "petg" = "petg" /\ truthy "petg" = true /\
  exists name hours,
    name ∈ strip <$> preset_names petg_config /\ "petg" = lower name /\
    config_getfloat petg_config ("preset_" +:+ name +:+ "_temp")
      = Some (preset.temp {| preset.temp := 70; preset.duration := 4 * 3600 |}) /\
    config_getfloat petg_config ("preset_" +:+ name +:+ "_duration") = Some hours /\
    preset.duration {| preset.temp := 70; preset.duration := 4 * 3600 |}
      = hours * 3600.
Proof.
  apply (registered_presets_come_from_config petg_config "petg"
           {| preset.temp := 70; preset.duration := 4 * 3600 |}).
  vm_compute. reflexivity.
Defined.

Lemma split_comma_nonempty s : split_comma s <> [].
Proof. destruct s as [|c s]; cbn; [done|]. repeat case_match; done. Qed.

Lemma split_comma_plain s :
  ","%char ∉ chars s -> split_comma s = [s].
Proof.
  induction s as [|c s IH]; cbn; [done|]. intros Hn.
  destruct (Ascii.eqb_spec c ","%char) as [->|Hc].
  - destruct Hn. apply list_elem_of_here.
  - rewrite IH; [done|]. intros Hin. apply Hn. by apply list_elem_of_further.
Qed.

Lemma append_cons c a b : String c a +:+ b = String c (a +:+ b).
Proof. reflexivity. Qed.

Lemma split_comma_append a b :
  split_comma (a +:+ String ","%char b) = (split_comma a ++ split_comma b)%list.
Proof.
  induction a as [|c a IH]; [done|].
  rewrite append_cons. cbn [split_comma]. rewrite IH.
  destruct (Ascii.eqb c ","%char); [done|].
  pose proof (split_comma_nonempty a). by destruct (split_comma a).
Qed.

(** X11.  Splitting at commas: the fields of [a,b] are those of [a]
    followed by those of [b]; when [a] has no comma it is the first
    field; no field contains a comma. *)
Theorem split_comma_separates_fields (a b : string) :
  split_comma (a +:+ String ","%char b) = (split_comma a ++ split_comma b)%list /\
  (","%char ∉ chars a -> split_comma (a +:+ String ","%char b) = a :: split_comma b) /\
  Forall (fun field => ","%char ∉ chars field) (split_comma a).
Proof.
  assert (forall s, Forall (fun field => ","%char ∉ chars field) (split_comma s)) as Hf.
  { induction s as [|c s IH]; cbn.
    - constructor; [|done]. apply not_elem_of_nil.
    - destruct (Ascii.eqb_spec c ","%char) as [->|Hc].
      + constructor; [apply not_elem_of_nil|done].
      + destruct (split_comma s) as [|x r]; cbn.
        * constructor; [|done]. intros Hin. apply list_elem_of_singleton in Hin. done.
        * inversion IH as [|? ? Hx Hr]; subst. constructor; [|done].
          intros [?|?]%elem_of_cons; done. }
  split; [apply split_comma_append|]. split; [|done].
  intros Hn. by rewrite split_comma_append, split_comma_plain.
Qed.

Lemma split_comma_separates_fields_witness :
  split_comma ("petg" +:+ String ","%char " abs,") =
    (split_comma "petg" ++ split_comma " abs,")%list /\
  (","%char ∉ chars "petg" ->
   split_comma ("petg" +:+ String ","%char " abs,") = "petg" :: split_comma " abs,") /\
  Forall (fun field => ","%char ∉ chars field) (split_comma "petg").
Proof. apply (split_comma_separates_fields "petg" " abs,"). Defined.

Example split_comma_run :
  split_comma "petg, abs,,pla " = ["petg"; " abs"; ""; "pla "] /\
  split_comma "" = [""].
Proof. split; reflexivity. Qed.


(** What a firing before the deadline does, once the instance is known to
    be consistent. *)
Lemma tick_before_deadline cfg p w now :
  reachable cfg p w ->
  is_drying (self w) = true ->
  start_time (self w) <= now ->
  now < end_time (self w) ->
  exists o,
    pheaters (printer w) !! heater_name (self w) = Some o /\
    _timer_callback now w =
      (Ok (At (now + 1)),
       if (py_mod (py_int (now - start_time (self w))) 300 =? 0)%Z
       then responded (progress_report now o w) w else w).
Proof.
  intros Hr Hd Hs He. pose proof (reachable_consistent cfg p w Hr) as Hc.
  destruct (consistent_resolve w Hc Hd) as (h & o & Hh & -> & Ho).
  pose proof (drying_deadline w Hc Hd) as Hend.
  exists o. split; [done|].
  rewrite (_timer_callback_running w now (heater_name (self w)) o Hd);
    [|by apply py_le_not_due|done..].
  destruct (py_mod _ _ =? 0)%Z; [|done].
  rewrite Qeq_bool_nonzero; [done|]. intros E. rewrite Hend, E in He. lra.
Qed.



(** What a firing at or after the deadline does. *)
Lemma tick_at_deadline cfg p w now :
  reachable cfg p w ->
  is_drying (self w) = true ->
  end_time (self w) <= now ->
  exists o,
    pheaters (printer w) !! heater_name (self w) = Some o /\
    _timer_callback now w =
      (Ok NEVER,
       stopped (heater_name (self w)) o
         (responded (respond_info [Lit "Filament drying cycle complete!"]) w)).
Proof.
  intros Hr Hd He. pose proof (reachable_consistent cfg p w Hr) as Hc.
  destruct (consistent_resolve w Hc Hd) as (h & o & Hh & -> & Ho).
  exists o. split; [done|].
  rewrite (_timer_callback_due w now Hd (py_le_due _ _ He)). cbn zeta.
  by rewrite (_stop_drying_active _ (heater_name (self w)) o).
Qed.

(** X14.  Fired at or after the recorded start time, the timer callback
    never raises: it answers [NEVER] and leaves the instance idle, or it
    answers one second later and the cycle goes on. *)
Theorem tick_after_start_never_raises (cfg : config) (p : host) (w : world)
    (now : Q) :
  reachable cfg p w ->
  start_time (self w) <= now ->
  exists next w1,
    _timer_callback now w = (Ok next, w1) /\
    (next = NEVER /\ is_drying (self w1) = false \/
     next = At (now + 1) /\ is_drying (self w1) = true /\ now < end_time (self w)).
Proof.
  intros Hr Hs. pose proof (reachable_consistent cfg p w Hr) as Hc.
  destruct (is_drying (self w)) eqn:Hd.
  - destruct (Qlt_le_dec now (end_time (self w))) as [He|He].
    + destruct (tick_before_deadline cfg p w now Hr Hd Hs He) as (o & Ho & Ht).
      eexists _, _. split; [exact Ht|]. right.
      split; [done|]. split; [|done]. by case_match.
    + destruct (tick_at_deadline cfg p w now Hr Hd He) as (o & Ho & Ht).
      eexists _, _. split; [exact Ht|]. by left.
  - eexists _, _. split; [by apply _timer_callback_idle|]. by left.
Qed.

Lemma tick_after_start_never_raises_witness :
  exists next w1,
    _timer_callback 250 drying_world = (Ok next, w1) /\
    (next = NEVER /\ is_drying (self w1) = false \/
     next = At (250 + 1) /\ is_drying (self w1) = true /\
     250 < end_time (self drying_world)).
Proof.
  apply (tick_after_start_never_raises petg_config bench drying_world 250).
  - apply reachable_step, reachable_init.
  - vm_compute. discriminate.
Defined.

(** Fired before the start time of a zero-length cycle, the callback does
    raise. *)
Example tick_before_start_can_raise :
  (_timer_callback (201 # 2) zero_world).1 = Raised ZeroDivisionError.
Proof. vm_compute. reflexivity. Qed.

Lemma run_ticks_before_deadline cfg p w times :
  reachable cfg p w ->
  is_drying (self w) = true ->
  Forall (fun t => start_time (self w) <= t /\ t < end_time (self w)) times ->
  reachable cfg p (run_ticks times w) /\
  self (run_ticks times w) = self w /\
  pheaters (printer (run_ticks times w)) = pheaters (printer w) /\
  timers (printer (run_ticks times w)) = timers (printer w).
Proof.
  intros Hr Hd Hall. revert w Hr Hd Hall.
  induction times as [|t times IH]; intros w Hr Hd Hall; [done|].
  inversion Hall as [|? ? [Hs He] Hrest]; subst.
  unfold run_ticks. cbn [foldl]. fold (run_ticks times (_timer_callback t w).2).
  destruct (tick_before_deadline cfg p w t Hr Hd Hs He) as (o & Ho & Ht).
  assert (self (_timer_callback t w).2 = self w /\
          pheaters (printer (_timer_callback t w).2) = pheaters (printer w) /\
          timers (printer (_timer_callback t w).2) = timers (printer w))
    as (E1 & E2 & E3) by (rewrite Ht; cbn; by case_match).
  destruct (IH (_timer_callback t w).2) as (H1 & H2 & H3 & H4).
  - apply (reachable_step cfg p w (timer_fires t) Hr).
  - by rewrite E1.
  - by rewrite E1.
  - rewrite H2, H3, H4. done.
Qed.

(** X15.  A whole cycle: after a successful start the heater target is
    the requested one and stays so through any firings before the
    deadline; the first firing at or after the deadline answers [NEVER]
    and leaves the heaters exactly as before the start, the instance idle
    and cleared, and its timer gone. *)
Theorem full_cycle_restores_heater (cfg : config) (p : host) (w : world)
    (temp seconds : Q) (o : heater_obj) (times : list Q) (final : Q) :
  reachable cfg p w ->
  is_drying (self w) = false ->
  pheaters (printer w) !! heater_name (self w) = Some o ->
  let w1 := (_start_drying temp seconds w).2 in
  Forall (fun t => start_time (self w1) <= t /\ t < end_time (self w1)) times ->
  end_time (self w1) <= final ->
  let w2 := run_ticks times w1 in
  let w3 := (_timer_callback final w2).2 in
  heater_target w1 = Some temp /\
  heater_target w2 = Some temp /\
  self w2 = self w1 /\
  (_timer_callback final w2).1 = Ok NEVER /\
  pheaters (printer w3) = pheaters (printer w) /\
  is_drying (self w3) = false /\
  timer_handler (self w3) = None /\
  timers (printer w3) = delete (timer_count (printer w)) (timers (printer w)) /\
  target_temp (self w3) = 0 /\ duration (self w3) = 0 /\
  start_time (self w3) = 0 /\ end_time (self w3) = 0.
Proof.
  intros Hr Hd Ho w1 Hall Hfinal w2 w3.
  pose proof (reachable_consistent cfg p w Hr) as Hc.
  assert (reachable cfg p w1) as Hr1
    by apply (reachable_step cfg p w (start_drying temp seconds) Hr).
  destruct (_start_drying_cases w temp seconds Hc)
    as [[Hd' _]|[(_ & Ho' & _)|(o' & _ & Ho' & Hs)]]; [congruence..|].
  assert (o' = o) as -> by congruence.
  assert (w1 = started temp seconds (heater_name (self w)) o w) as Hw1
    by (subst w1; by rewrite Hs).
  assert (is_drying (self w1) = true) as Hd1 by (by rewrite Hw1).
  destruct (run_ticks_before_deadline cfg p w1 times Hr1 Hd1 Hall)
    as (Hr2 & Hself & Hph & Htm).
  fold w2 in Hr2, Hself, Hph, Htm.
  assert (is_drying (self w2) = true) as Hd2 by (by rewrite Hself).
  assert (end_time (self w2) <= final) as Hf2 by (by rewrite Hself).
  destruct (tick_at_deadline cfg p w2 final Hr2 Hd2 Hf2) as (o2 & Ho2 & Ht).
  assert (heater_target w1 = Some temp) as Ht1.
  { rewrite Hw1. unfold heater_target. cbn. by rewrite lookup_insert_eq. }
  assert (o2 = {| temperature := temperature o; target := temp |}) as ->.
  { rewrite Hself, Hph, Hw1 in Ho2. cbn in Ho2. rewrite lookup_insert_eq in Ho2.
    congruence. }
  split; [done|]. split.
  { unfold heater_target in *. by rewrite Hself, Hph. }
  split; [done|]. subst w3. rewrite Ht. cbn.
  rewrite Hself, Hph, Htm, Hw1. cbn.
  repeat split; try done.
  - rewrite insert_insert_eq. apply insert_id. rewrite Ho. by destruct o.
  - by rewrite delete_insert_eq.
Qed.

Lemma full_cycle_restores_heater_witness :
  let w := idle_world in
  let w1 := (_start_drying 50 3600 w).2 in
  let w2 := run_ticks [102; 401; 3700] w1 in
  let w3 := (_timer_callback 3701 w2).2 in
  heater_target w1 = Some 50 /\
  heater_target w2 = Some 50 /\
  self w2 = self w1 /\
  (_timer_callback 3701 w2).1 = Ok NEVER /\
  pheaters (printer w3) = pheaters (printer w) /\
  is_drying (self w3) = false /\
  timer_handler (self w3) = None /\
  timers (printer w3) = delete (timer_count (printer w)) (timers (printer w)) /\
  target_temp (self w3) = 0 /\ duration (self w3) = 0 /\
  start_time (self w3) = 0 /\ end_time (self w3) = 0.
Proof.
  apply (full_cycle_restores_heater petg_config bench idle_world 50 3600
           {| temperature := Some 21; target := 5 |} [102; 401; 3700] 3701).
  - apply reachable_init.
  - reflexivity.
  - vm_compute. reflexivity.
  - repeat constructor; vm_compute; (discriminate || reflexivity).
  - vm_compute. discriminate.
Defined.

(** X16.  Provided the host's own timers have handles below its
    counter, the instance never touches them and owns at most one
    reactor timer: beyond the host's, a timer is registered exactly under
    the handle the instance holds, and handles are never reused. *)
Theorem one_pending_timer (cfg : config) (p : host) (w : world) :
  (forall h, is_Some (timers p !! h) -> (h < timer_count p)%nat) ->
  reachable cfg p w ->
  timers_tracked p w.
Proof.
  intros Hp. induction 1 as [|w c Hr IH].
  { unfold timers_tracked. cbn. split; [done|]. split; [done|]. split; [|done].
    intros h Hge. split; [|done]. intros Hs. apply Hp in Hs. lia. }
  pose proof (reachable_consistent cfg p w Hr) as Hc.
  apply (perform_keeps (timers_tracked p)); try done.
  - clear. intros w o Hc Hd Ho (H1 & H2 & H3 & H4). unfold timers_tracked. cbn.
    destruct (timer_handler (self w)) as [handle|] eqn:Hh.
    + destruct (H4 handle eq_refl) as [Hlo Hhi].
      split; [done|]. split; [|split; [|done]].
      * intros h Hlt. rewrite lookup_delete_ne by lia. by apply H2.
      * intros h Hge. split; [|done]. intros [x Hx].
        destruct (decide (handle = h)) as [->|Hne].
        -- by rewrite lookup_delete_eq in Hx.
        -- rewrite lookup_delete_ne in Hx by done.
           assert (Some handle = Some h) by (apply H3; eauto). congruence.
    + split; [done|]. split; [done|]. split; [|done].
      intros h Hge. split; [|done]. intros Hs. by apply H3 in Hs.
  - clear. intros w temp duration o Hc Hd Ho (H1 & H2 & H3 & H4).
    assert (timer_handler (self w) = None) as Hth.
    { destruct (timer_handler (self w)) eqn:E; [|done].
      assert (is_drying (self w) = true); [|congruence].
      apply (timer_iff_drying w Hc). by rewrite E. }
    unfold timers_tracked. cbn. split; [lia|]. split; [|split].
    + intros h Hlt. rewrite lookup_insert_ne by lia. by apply H2.
    + intros h Hge. destruct (decide (timer_count (printer w) = h)) as [<-|Hne].
      * rewrite lookup_insert_eq. split; eauto.
      * rewrite lookup_insert_ne by done. split.
        -- intros Hs. apply H3 in Hs; [congruence|done].
        -- intros [= ?]. done.
    + intros h [= <-]. lia.
Qed.

Lemma one_pending_timer_witness : timers_tracked bench drying_world.
Proof.
  apply (one_pending_timer petg_config bench drying_world).
  - intros h [x Hx]. vm_compute in Hx. discriminate.
  - apply reachable_step, reachable_init.
Defined.

(** X17.  Whatever is called, the registry keeps its names, every
    heater keeps its temperature reading, and every heater but the
    configured one is untouched. *)
Theorem only_the_configured_heater_is_written (cfg : config) (p : host)
    (w : world) :
  reachable cfg p w ->
  heaters_tracked cfg p w.
Proof.
  induction 1 as [|w c Hr IH]; [done|].
  pose proof (reachable_consistent cfg p w Hr) as Hc.
  apply (perform_keeps (heaters_tracked cfg p)); try done.
  - clear. intros w o Hc Hd Ho (H1 & H2 & H3 & H4).
    unfold heaters_tracked, stopped. cbn [self printer pheaters heater_name].
    split; [done|]. split; [|split].
    + rewrite dom_insert_L, subseteq_union_1_L; [done|].
      apply singleton_subseteq_l, elem_of_dom. eauto.
    + intros h Hne. rewrite lookup_insert_ne by congruence. by apply H3.
    + intros h. destruct (decide (heater_name (self w) = h)) as [<-|Hne].
      * rewrite lookup_insert_eq, <- H4, Ho. done.
      * rewrite lookup_insert_ne by done. apply H4.
  - clear. intros w temp duration o Hc Hd Ho (H1 & H2 & H3 & H4).
    unfold heaters_tracked, started. cbn [self printer pheaters heater_name].
    split; [done|]. split; [|split].
    + rewrite dom_insert_L, subseteq_union_1_L; [done|].
      apply singleton_subseteq_l, elem_of_dom. eauto.
    + intros h Hne. rewrite lookup_insert_ne by congruence. by apply H3.
    + intros h. destruct (decide (heater_name (self w) = h)) as [<-|Hne].
      * rewrite lookup_insert_eq, <- H4, Ho. done.
      * rewrite lookup_insert_ne by done. apply H4.
Qed.

Lemma only_the_configured_heater_is_written_witness :
  heaters_tracked petg_config bench drying_world.
Proof.
  apply (only_the_configured_heater_is_written petg_config bench).
  apply reachable_step, reachable_init.
Defined.

(** X18.  The idle monitor is only ever set to ["Printing"], and only
    if present; it is ["Printing"] throughout a cycle; neither a stop nor
    a timer firing puts it back. *)
Theorem idle_timeout_is_set_and_never_restored (cfg : config) (p : host)
    (w : world) :
  reachable cfg p w ->
  idle_timeout_tracked p w /\
  idle_timeout (printer (_stop_drying w).2) = idle_timeout (printer w) /\
  (forall eventtime,
     idle_timeout (printer (_timer_callback eventtime w).2)
     = idle_timeout (printer w)).
Proof.
  intros Hr. pose proof (reachable_consistent cfg p w Hr) as Hc.
  split; [|split].
  - clear Hc. induction Hr as [|w c Hr IH].
    { unfold idle_timeout_tracked. cbn. repeat split; try done. by left. }
    pose proof (reachable_consistent cfg p w Hr) as Hc.
    apply (perform_keeps (idle_timeout_tracked p)); try done.
    + clear. intros w o Hc Hd Ho (H1 & H2 & H3). unfold idle_timeout_tracked. cbn.
      done.
    + clear. intros w temp duration o Hc Hd Ho (H1 & H2 & H3).
      unfold idle_timeout_tracked. cbn.
      destruct (idle_timeout (printer w)) as [state|] eqn:E.
      * assert (idle_timeout p <> None) as Hp.
        { intros Hn. apply H1 in Hn. congruence. }
        split; [done|]. split; [by right|done].
      * destruct H2 as [H2|[H2 _]]; [|done].
        split; [done|]. split; [by left|]. intros _ Hp. congruence.
  - by destruct (_stop_drying_cases w Hc) as [[_ ->]|(o & _ & _ & ->)].
  - intros eventtime.
    apply (_timer_callback_keeps
             (fun w' => idle_timeout (printer w') = idle_timeout (printer w)));
      done.
Qed.

Lemma idle_timeout_is_set_and_never_restored_witness :
  let w := (_stop_drying drying_world).2 in
  idle_timeout_tracked bench w /\
  idle_timeout (printer (_stop_drying w).2) = idle_timeout (printer w) /\
  (forall eventtime,
     idle_timeout (printer (_timer_callback eventtime w).2)
     = idle_timeout (printer w)).
Proof.
  apply (idle_timeout_is_set_and_never_restored petg_config bench).
  apply (reachable_step petg_config bench drying_world stop_drying).
  apply reachable_step, reachable_init.
Defined.

(** After a whole cycle the idle monitor is still in the state the start
    put it in. *)
Example idle_timeout_after_a_cycle :
  idle_timeout (printer idle_world) = Some "Idle" /\
  idle_timeout (printer drying_world) = Some "Printing" /\
  idle_timeout (printer (_stop_drying drying_world).2) = Some "Printing".
Proof. vm_compute. repeat split. Qed.

(** X19.  [DRYER_STATUS], [LIST_DRYER_PRESETS] and [get_status] change
    no attribute of the instance, no heater, no timer and not the idle
    monitor; only [DRYER_STATUS] during a cycle takes one clock
    reading. *)
Theorem queries_change_no_state (cfg : config) (p : host) (w : world)
    (c : call) :
  reachable cfg p w ->
  read_only c = true ->
  self (perform c w) = self w /\
  pheaters (printer (perform c w)) = pheaters (printer w) /\
  timers (printer (perform c w)) = timers (printer w) /\
  timer_count (printer (perform c w)) = timer_count (printer w) /\
  idle_timeout (printer (perform c w)) = idle_timeout (printer w) /\
  (is_drying (self w) = false \/ c <> DRYER_STATUS ->
   clock_reads (printer (perform c w)) = clock_reads (printer w)) /\
  (is_drying (self w) = true -> c = DRYER_STATUS ->
   clock_reads (printer (perform c w)) = S (clock_reads (printer w))).
Proof.
  intros Hr Hc. pose proof (reachable_consistent cfg p w Hr) as Hw.
  destruct c; try discriminate; cbn [perform].
  - destruct (is_drying (self w)) eqn:Hd.
    + destruct (consistent_resolve w Hw Hd) as (h & o & Hh & -> & Ho).
      rewrite (cmd_DRYER_STATUS_active w _ o Hd Hh Ho).
      case_match; cbn; repeat split; try done; intros [?|?]; done.
    + rewrite (cmd_DRYER_STATUS_idle w Hd). cbn. repeat split; done.
  - rewrite cmd_LIST_DRYER_PRESETS_eq. cbn. repeat split; done.
  - destruct (get_status_pure eventtime w) as [s ->]. cbn. repeat split; done.
Qed.

Lemma queries_change_no_state_witness :
  let w := drying_world in
  let c := DRYER_STATUS in
  self (perform c w) = self w /\
  pheaters (printer (perform c w)) = pheaters (printer w) /\
  timers (printer (perform c w)) = timers (printer w) /\
  timer_count (printer (perform c w)) = timer_count (printer w) /\
  idle_timeout (printer (perform c w)) = idle_timeout (printer w) /\
  (is_drying (self w) = false \/ c <> DRYER_STATUS ->
   clock_reads (printer (perform c w)) = clock_reads (printer w)) /\
  (is_drying (self w) = true -> c = DRYER_STATUS ->
   clock_reads (printer (perform c w)) = S (clock_reads (printer w))).
Proof.
  apply (queries_change_no_state petg_config bench drying_world DRYER_STATUS).
  - apply reachable_step, reachable_init.
  - reflexivity.
Defined.

(** X20.  [START_FILAMENT_DRYING TEMP=t DURATION=h] on an idle instance
    whose heater exists succeeds: the cycle is recorded with duration
    h*3600 and deadline start + h*3600, the start time is the second of
    three clock readings, the old target is saved and the new one set, a
    timer is registered under a fresh handle for the third reading plus
    one, and the confirmation shows [t] and [h]. *)
Theorem manual_start_records_the_cycle (cfg : config) (p : host) (w : world)
    (temp hours : Q) (o : heater_obj) :
  reachable cfg p w ->
  is_drying (self w) = false ->
  pheaters (printer w) !! heater_name (self w) = Some o ->
  let n := clock_reads (printer w) in
  let handle := timer_count (printer w) in
  exists w1 shown_hours,
    cmd_START_FILAMENT_DRYING
      {| PRESET := None; TEMP := Some temp; DURATION := Some hours |} w
      = (Ok tt, w1) /\
    is_drying (self w1) = true /\
    target_temp (self w1) = temp /\
    duration (self w1) = hours * 3600 /\
    start_time (self w1) = clock (printer w) (S n) /\
    end_time (self w1) = start_time (self w1) + hours * 3600 /\
    original_target (self w1) = target o /\
    heater_target w1 = Some temp /\
    heater (self w1) = Some (heater_name (self w)) /\
    timer_handler (self w1) = Some handle /\
    timers (printer w1) !! handle = Some (At (clock (printer w) (S (S n)) + 1)) /\
    clock_reads (printer w1) = S (S (S n)) /\
    responses (printer w1) =
      (responses (printer w) ++
         [respond_info
            [Fmt "Started filament drying: %.1f°C for %.1f hours"
                 [Num temp; Num shown_hours]]])%list /\
    shown_hours == hours.
Proof.
  intros Hr Hd Ho n handle.
  pose proof (reachable_consistent cfg p w Hr) as Hc.
  rewrite start_by_hand.
  destruct (_start_drying_cases w temp (hours * 3600) Hc)
    as [[Hd' _]|[(_ & Ho' & _)|(o' & _ & Ho' & Hs)]]; [congruence..|].
  assert (o' = o) as -> by congruence.
  eexists _, (hours * 3600 / 3600). split; [exact Hs|].
  unfold heater_target. cbn. rewrite !lookup_insert_eq.
  repeat split; try done. field.
Qed.

Lemma manual_start_records_the_cycle_witness :
  let w := idle_world in
  let n := clock_reads (printer w) in
  let handle := timer_count (printer w) in
  exists w1 shown_hours,
    cmd_START_FILAMENT_DRYING
      {| PRESET := None; TEMP := Some 50; DURATION := Some 1 |} w
      = (Ok tt, w1) /\
    is_drying (self w1) = true /\
    target_temp (self w1) = 50 /\
    duration (self w1) = 1 * 3600 /\
    start_time (self w1) = clock (printer w) (S n) /\
    end_time (self w1) = start_time (self w1) + 1 * 3600 /\
    original_target (self w1) = 5 /\
    heater_target w1 = Some 50 /\
    heater (self w1) = Some (heater_name (self w)) /\
    timer_handler (self w1) = Some handle /\
    timers (printer w1) !! handle = Some (At (clock (printer w) (S (S n)) + 1)) /\
    clock_reads (printer w1) = S (S (S n)) /\
    responses (printer w1) =
      (responses (printer w) ++
         [respond_info
            [Fmt "Started filament drying: %.1f°C for %.1f hours"
                 [Num 50; Num shown_hours]]])%list /\
    shown_hours == 1.
Proof.
  apply (manual_start_records_the_cycle petg_config bench idle_world 50 1
           {| temperature := Some 21; target := 5 |}).
  - apply reachable_init.
  - reflexivity.
  - vm_compute. reflexivity.
Defined.

Lemma tick_not_due_is_not_never cfg p w now :
  reachable cfg p w ->
  is_drying (self w) = true ->
  py_le (end_time (self w) - now) 0 = false ->
  (_timer_callback now w).1 <> Ok NEVER.
Proof.
  intros Hr Hd Hle. pose proof (reachable_consistent cfg p w Hr) as Hc.
  destruct (consistent_resolve w Hc Hd) as (h & o & Hh & -> & Ho).
  rewrite (_timer_callback_running w now _ o Hd Hle Hh Ho).
  by repeat case_match.
Qed.

(** X21.  During a cycle the status dictionary carries
    [eventtime - start_time] and [end_time - eventtime].  At or after the
    start neither the elapsed time nor the progress is negative, and the
    progress is 0 at the start.  The remaining time is zero or negative
    exactly when the deadline has come, which is exactly when a firing of
    the timer callback at that time ends the cycle. *)
Theorem status_signs_follow_the_clock (cfg : config) (p : host) (w : world)
    (now : Q) :
  reachable cfg p w ->
  is_drying (self w) = true ->
  exists status progress,
    get_status now w = (Ok status, w) /\
    status !! "elapsed" = Some (VNum (now - start_time (self w))) /\
    status !! "remaining" = Some (VNum (end_time (self w) - now)) /\
    status !! "progress" = Some (VNum progress) /\
    (start_time (self w) <= now ->
     0 <= now - start_time (self w) /\ 0 <= progress) /\
    (now == start_time (self w) -> progress == 0) /\
    (end_time (self w) - now <= 0 <-> end_time (self w) <= now) /\
    (end_time (self w) - now <= 0 <-> (_timer_callback now w).1 = Ok NEVER).
Proof.
  intros Hr Hd. pose proof (reachable_consistent cfg p w Hr) as Hc.
  eexists _, _. split; [by apply get_status_active|].
  split; [by simplify_map_eq|]. split; [by simplify_map_eq|].
  split; [by simplify_map_eq|].
  split; [|split; [|split; [split; lra|]]].
  - intros Hs. split; [lra|].
    destruct (Qlt_le_dec 0 (duration (self w))) as [Hpos|Hneg].
    + rewrite py_gt_true by done.
      assert (0 <= (now - start_time (self w)) / duration (self w)) as H0
        by (apply Qle_shift_div_l; [done|lra]).
      lra.
    + rewrite py_gt_false by done. lra.
  - intros E. destruct (Qlt_le_dec 0 (duration (self w))) as [Hpos|Hneg].
    + rewrite py_gt_true by done. rewrite E. field. lra.
    + by rewrite py_gt_false.
  - split.
    + intros Hle.
      assert (end_time (self w) <= now) as He by lra.
      destruct (tick_at_deadline cfg p w now Hr Hd He) as (o & _ & ->). done.
    + intros Ht. destruct (Qlt_le_dec 0 (end_time (self w) - now)) as [Hlt|Hle];
        [|done].
      exfalso. apply (tick_not_due_is_not_never cfg p w now Hr Hd); [|done].
      apply py_le_not_due. lra.
Qed.

Lemma status_signs_follow_the_clock_witness :
  exists status progress,
    get_status 401 drying_world = (Ok status, drying_world) /\
    status !! "elapsed" = Some (VNum (401 - start_time (self drying_world))) /\
    status !! "remaining" = Some (VNum (end_time (self drying_world) - 401)) /\
    status !! "progress" = Some (VNum progress) /\
    (start_time (self drying_world) <= 401 ->
     0 <= 401 - start_time (self drying_world) /\ 0 <= progress) /\
    (401 == start_time (self drying_world) -> progress == 0) /\
    (end_time (self drying_world) - 401 <= 0 <->
     end_time (self drying_world) <= 401) /\
    (end_time (self drying_world) - 401 <= 0 <->
     (_timer_callback 401 drying_world).1 = Ok NEVER).
Proof.
  apply (status_signs_follow_the_clock petg_config bench drying_world 401).
  - apply reachable_step, reachable_init.
  - reflexivity.
Defined.

Lemma rstrip_idempotent s : rstrip (rstrip s) = rstrip s.
Proof.
  induction s as [|c s IH]; [done|]. cbn [rstrip].
  destruct (rstrip s) as [|x r] eqn:E.
  - destruct (is_space c) eqn:Hc; [done|]. cbn. by rewrite Hc.
  - cbn [rstrip] in *. by rewrite IH.
Qed.

Lemma rstrip_trailing s c : is_space c = true -> rstrip (s +:+ String c "") = rstrip s.
Proof.
  intros Hc. induction s as [|x s IH].
  - change (rstrip (String c "") = rstrip ""). cbn. by rewrite Hc.
  - rewrite append_cons. cbn [rstrip]. by rewrite IH.
Qed.

Lemma lstrip_shape s :
  lstrip s = "" \/ exists c r, lstrip s = String c r /\ is_space c = false.
Proof.
  induction s as [|c s IH]; [by left|]. cbn.
  destruct (is_space c) eqn:Hc; [exact IH|]. right. eauto.
Qed.

Lemma lstrip_rstrip_started c r :
  is_space c = false -> lstrip (rstrip (String c r)) = rstrip (String c r).
Proof.
  intros Hc. cbn [rstrip]. destruct (rstrip r); rewrite ?Hc; cbn; by rewrite Hc.
Qed.

(** X12.  [strip] drops an ASCII white-space character in front and at
    the end and is idempotent; its first step, [lstrip], leaves no such
    character in front; a single ASCII character that is not white space
    is kept. *)
Theorem strip_removes_surrounding_space (s : string) (c : ascii) :
  is_space c = true ->
  strip (String c s) = strip s /\
  strip (s +:+ String c "") = strip s /\
  strip (strip s) = strip s /\
  (forall first rest, lstrip s = String first rest -> is_space first = false) /\
  (forall x, (nat_of_ascii x < 128)%nat -> is_space x = false ->
             strip (String x "") = String x "").
Proof.
  intros Hc. unfold strip. split; [|split; [|split; [|split]]].
  - cbn. by rewrite Hc.
  - assert (lstrip (s +:+ String c "") =
            match lstrip s with "" => "" | t => t +:+ String c "" end) as ->.
    { induction s as [|x s IH];
        [change (lstrip (String c "") = ""); cbn; by rewrite Hc|].
      rewrite append_cons. cbn [lstrip]. destruct (is_space x); [exact IH|done]. }
    destruct (lstrip s) as [|x t]; [done|]. by apply rstrip_trailing.
  - destruct (lstrip_shape s) as [->|(x & r & -> & Hx)]; [done|].
    by rewrite lstrip_rstrip_started, rstrip_idempotent.
  - intros first rest E. destruct (lstrip_shape s) as [E'|(x & r & E' & Hx)];
      congruence.
  - intros x _ Hx. cbn. rewrite Hx. cbn. by rewrite Hx.
Qed.

Lemma strip_removes_surrounding_space_witness :
  strip (String " " " petg ") = strip " petg " /\
  strip (" petg " +:+ String " " "") = strip " petg " /\
  strip (strip " petg ") = strip " petg " /\
  (forall first rest, lstrip " petg " = String first rest ->
                      is_space first = false) /\
  (forall x, (nat_of_ascii x < 128)%nat -> is_space x = false ->
             strip (String x "") = String x "").
Proof. apply (strip_removes_surrounding_space " petg " " "). reflexivity. Defined.

(** The separators 28 to 31 are white space too. *)
Example strip_separators :
  strip (String (ascii_of_nat 31) ("petg" +:+ String (ascii_of_nat 28) ""))
    = "petg".
Proof. reflexivity. Qed.

Example strip_petg : strip "  petg " = "petg" /\ strip "   " = "".
Proof. split; reflexivity. Qed.
